(** * Goals! -- a verification development for [goals_app.py]

    The program keeps a list of goal records (a name and a start date),
    persists it to [goals_data.json], shows for each record the time elapsed
    since its date, and keeps a font-size preference in [settings.json].

    The development is a shallow embedding: the methods of [GoalsApp] become
    functions on an explicit application state [App] (the attributes the
    methods read and write, and the two files), the module-level helper
    [calculate_time_elapsed] becomes a pure function of the clock and the
    date string.

    Modelling scope.
    - Strings are [string]s of the Standard Library, read as ASCII text:
      [str.strip] and [str.lower] are modelled on the ASCII range.  Python
      compares strings by code point, which on this range is
      [String.compare].
    - [date.fromisoformat] is the strict [YYYY-MM-DD] parser: the format the
      program's messages, placeholder and docstring name, and the only one
      the function accepts up to Python 3.10 (later versions also read
      other ISO 8601 forms, which the program does not ask for).  [date]
      subtraction goes through the proleptic Gregorian ordinal, as in the
      [datetime] module.
    - A file is represented by what [json.load] makes of its text; writing a
      file always succeeds, and [json.load] reads back what [json.dump]
      wrote.
    - Widgets are left out of the first part, except for the text and colour
      of the status label, which is how the program reports an outcome; the
      second part adds the rows of the display and the timer of the
      label. *)

From Stdlib Require Import ZArith List Bool Lia String Ascii.
From Stdlib Require Import Sorting.Sorted Sorting.Permutation.
From Stdlib Require Import QArith.
From Stdlib Require DecimalString.
Import ListNotations.

Local Open Scope string_scope.
Local Open Scope Z_scope.

(** ** Constants *)

Definition MAX_GOALS : Z := 10.
Definition DEFAULT_FONT_SIZE : Z := 16.
Definition MIN_FONT_SIZE : Z := 12.
Definition MAX_FONT_SIZE : Z := 24.
Definition FONT_SIZE_INCREMENT : Z := 2.

(** [range(start, stop, step)] for a positive [step]. *)
Definition range (start stop step : Z) : list Z :=
  map (fun i => start + step * Z.of_nat i)
      (seq 0 (Z.to_nat ((stop - start + step - 1) / step))).

(** ** Python strings *)

Module PyStr.

Definition code (c : ascii) : Z := Z.of_N (N_of_ascii c).

(** [str.isspace] on the ASCII range: TAB..CR, FS..US and the blank. *)
Definition isspace (c : ascii) : bool :=
  let n := code c in
  ((9 <=? n) && (n <=? 13)) || ((28 <=? n) && (n <=? 32)).

Fixpoint lstrip (s : string) : string :=
  match s with
  | String c s' => if isspace c then lstrip s' else s
  | EmptyString => EmptyString
  end.

Fixpoint rstrip (s : string) : string :=
  match s with
  | String c s' =>
      match rstrip s' with
      | EmptyString => if isspace c then EmptyString else String c EmptyString
      | r => String c r
      end
  | EmptyString => EmptyString
  end.

Definition strip (s : string) : string := rstrip (lstrip s).

Definition lower_char (c : ascii) : ascii :=
  let n := code c in
  if (65 <=? n) && (n <=? 90) then ascii_of_N (Z.to_N (n + 32)) else c.

Fixpoint lower (s : string) : string :=
  match s with
  | String c s' => String (lower_char c) (lower s')
  | EmptyString => EmptyString
  end.

(** [str(n)] for an [int]. *)
Definition str (n : Z) : string :=
  DecimalString.NilZero.string_of_int (Z.to_int n).

(** [sep.join(parts)] *)
Definition join (sep : string) (parts : list string) : string :=
  String.concat sep parts.

(** [s1 < s2] and [s1 <= s2] on [str]. *)
Definition lt (s1 s2 : string) : bool := String.ltb s1 s2.
Definition le (s1 s2 : string) : bool := negb (String.ltb s2 s1).

End PyStr.

(** The entries of the font-size combo box. *)
Definition AVAILABLE_FONT_SIZES : list string :=
  map PyStr.str (range MIN_FONT_SIZE (MAX_FONT_SIZE + 1) FONT_SIZE_INCREMENT).

(** ** [datetime.date] *)

Module PyDate.

Record date := mkdate { year : Z; month : Z; day : Z }.

Definition MINYEAR : Z := 1.
Definition MAXYEAR : Z := 9999.

Definition is_leap (y : Z) : bool :=
  (y mod 4 =? 0) && (negb (y mod 100 =? 0) || (y mod 400 =? 0)).

Definition DAYS_IN_MONTH : list Z :=
  [-1; 31; 28; 31; 30; 31; 30; 31; 31; 30; 31; 30; 31].

Definition DAYS_BEFORE_MONTH : list Z :=
  [-1; 0; 31; 59; 90; 120; 151; 181; 212; 243; 273; 304; 334].

Definition days_before_year (y : Z) : Z :=
  let y := y - 1 in y * 365 + y / 4 - y / 100 + y / 400.

Definition days_in_month (y m : Z) : Z :=
  if (m =? 2) && is_leap y then 29 else nth (Z.to_nat m) DAYS_IN_MONTH 0.

Definition days_before_month (y m : Z) : Z :=
  nth (Z.to_nat m) DAYS_BEFORE_MONTH 0
  + (if (2 <? m) && is_leap y then 1 else 0).

Definition ymd2ord (y m d : Z) : Z :=
  days_before_year y + days_before_month y m + d.

Definition toordinal (d : date) : Z := ymd2ord (year d) (month d) (day d).

(** The range check of the [date] constructor; [false] is its
    [ValueError]. *)
Definition check_date_fields (y m d : Z) : bool :=
  (MINYEAR <=? y) && (y <=? MAXYEAR)
  && (1 <=? m) && (m <=? 12)
  && (1 <=? d) && (d <=? days_in_month y m).

Definition digit (c : ascii) : option Z :=
  let n := PyStr.code c in
  if (48 <=? n) && (n <=? 57) then Some (n - 48) else None.

Definition digits2 (a b : ascii) : option Z :=
  match digit a, digit b with
  | Some x, Some y => Some (10 * x + y)
  | _, _ => None
  end.

Definition digits4 (a b c d : ascii) : option Z :=
  match digits2 a b, digits2 c d with
  | Some x, Some y => Some (100 * x + y)
  | _, _ => None
  end.

(** [date.fromisoformat]: exactly ten characters [YYYY-MM-DD]; [None] is
    the [ValueError]. *)
Definition fromisoformat (s : string) : option date :=
  match list_ascii_of_string s with
  | [y1; y2; y3; y4; s1; m1; m2; s2; d1; d2] =>
      if Ascii.eqb s1 "-" && Ascii.eqb s2 "-" then
        match digits4 y1 y2 y3 y4, digits2 m1 m2, digits2 d1 d2 with
        | Some y, Some m, Some d =>
            if check_date_fields y m d then Some (mkdate y m d) else None
        | _, _, _ => None
        end
      else None
  | _ => None
  end.

(** Comparison of two dates, as [date.__lt__] compares the triples. *)
Definition lt (a b : date) : bool :=
  (year a <? year b)
  || ((year a =? year b)
      && ((month a <? month b)
          || ((month a =? month b) && (day a <? day b)))).

Definition le (a b : date) : bool := negb (lt b a).

(** [(a - b).days] *)
Definition sub_days (a b : date) : Z := toordinal a - toordinal b.

End PyDate.

(** ** The elapsed-time formatter *)

(** What the formatter reads from the system clock: [date.today()] and the
    text of [datetime.now().strftime("%Y-%m-%d %H:%M")]. *)
Record Clock := mkClock { today : PyDate.date; now_str : string }.

Definition INVALID_DATE_FORMAT : string := "Invalid Date Format (Use YYYY-MM-DD)".
Definition TODAY_IS_THE_DAY : string := "Today is the day!".

Definition future_message (start_date_str now : string) : string :=
  "Date " ++ start_date_str ++ " is in the future (current time: " ++ now ++ ").".

(** The conditional suffix ['s' if cond else ''] of the f-strings. *)
Definition plural_s (cond : bool) : string :=
  if cond then "s" else EmptyString.

(** The list [parts] of [calculate_time_elapsed] once both [if]s have run. *)
Definition elapsed_parts (delta_days : Z) : list string :=
  let years := delta_days / 365 in
  let remaining_days := delta_days mod 365 in
  let days := remaining_days in
  let parts := [] in
  let parts :=
    if 0 <? years
    then app parts [PyStr.str years ++ " year" ++ plural_s (1 <? years)]
    else parts in
  let parts :=
    if (0 <? days) || (delta_days =? 0)
    then app parts [PyStr.str days ++ " day" ++ plural_s (negb (days =? 1))]
    else parts in
  parts.

(** The three [return]s that follow the construction of [parts]. *)
Inductive ElapsedBranch := BranchToday | BranchFallback | BranchJoined.

Definition elapsed_branch (delta_days : Z) : ElapsedBranch :=
  if delta_days =? 0 then BranchToday
  else match elapsed_parts delta_days with
       | [] => BranchFallback
       | _ :: _ => BranchJoined
       end.

Definition elapsed_result (delta_days : Z) : string * option Z :=
  match elapsed_branch delta_days with
  | BranchToday => (TODAY_IS_THE_DAY, Some delta_days)
  | BranchFallback =>
      (PyStr.str delta_days ++ " day" ++ plural_s (negb (delta_days =? 1)) ++ " ago",
       Some delta_days)
  | BranchJoined =>
      let time_str := PyStr.join ", " (elapsed_parts delta_days) in
      (time_str ++ " ago", Some delta_days)
  end.

Definition calculate_time_elapsed (clk : Clock) (start_date_str : string)
  : string * option Z :=
  match PyDate.fromisoformat start_date_str with
  | None => (INVALID_DATE_FORMAT, None)
  | Some start_date =>
      let delta_days := PyDate.sub_days (today clk) start_date in
      if delta_days <? 0
      then (future_message start_date_str (now_str clk), None)
      else elapsed_result delta_days
  end.

(** ** [list.sort(key=...)]

    Python computes the key of every element first, then sorts the keys
    stably, comparing with [<] only.  When a key raises, the list is left as
    it was and the exception propagates: that is [None] below. *)

Section ListSort.
Context {K A : Type}.
Variable ltb : K -> K -> bool.

Fixpoint insert_keyed (x : K * A) (l : list (K * A)) : list (K * A) :=
  match l with
  | [] => [x]
  | y :: l' => if ltb (fst y) (fst x) then y :: insert_keyed x l' else x :: l
  end.

Fixpoint sort_keyed (l : list (K * A)) : list (K * A) :=
  match l with
  | [] => []
  | x :: l' => insert_keyed x (sort_keyed l')
  end.

Fixpoint decorate (key : A -> option K) (l : list A) : option (list (K * A)) :=
  match l with
  | [] => Some []
  | x :: l' =>
      match key x, decorate key l' with
      | Some k, Some kl => Some ((k, x) :: kl)
      | _, _ => None
      end
  end.

Definition list_sort (key : A -> option K) (l : list A) : option (list A) :=
  match decorate key l with
  | Some kl => Some (map snd (sort_keyed kl))
  | None => None
  end.

(** The same with a key that cannot raise. *)
Definition list_sort_total (key : A -> K) (l : list A) : list A :=
  map snd (sort_keyed (map (fun x => (key x, x)) l)).

(** [a <= b], as the sort sees it: [b] is not below [a]. *)
Definition not_above (a b : K) : Prop := ltb b a = false.

Definition keys_ascending (l : list (K * A)) : Prop :=
  StronglySorted (fun p q => not_above (fst p) (fst q)) l.

(** Order of two elements by their keys, when both keys exist. *)
Definition key_le (key : A -> option K) (x y : A) : Prop :=
  match key x, key y with
  | Some kx, Some ky => not_above kx ky
  | _, _ => False
  end.
End ListSort.

(** ** Goal records and files *)

(** A goal is the [dict] that [json.load] returns or [add_goal] builds; the
    program reads it with [.get(key, default)] only, so either key may be
    absent. *)
Record Goal := mkGoal { name : option string; date : option string }.

(** [field.get(default)] *)
Definition get (field : option string) (default : string) : string :=
  match field with
  | Some v => v
  | None => default
  end.

(** A Python number: an [int], a finite [float], or one of [nan], [inf],
    [-inf]. *)
Inductive number := Int (z : Z) | Float (q : Q) | NonFinite.

#[local] Unset Elimination Schemes.
Inductive json :=
| JNull
| JBool (b : bool)
| JNum (n : number)
| JStr (s : string)
| JArr (l : list json)
| JObj (items : list (string * json)).
#[local] Set Elimination Schemes.

(** The text of an existing file, as [json.load] sees it. *)
Inductive FileText (A : Type) :=
| Malformed            (* [json.load] raises [JSONDecodeError] *)
| Json (v : A).
Arguments Malformed {A}.
Arguments Json {A} v.

(** ** Application state *)

Record App := mkApp {
  goals : list Goal;
  current_font_size : number;
  status_text : string;
  status_color : string;
  data_file : option (FileText (list Goal));      (* goals_data.json *)
  settings_file : option (FileText json)          (* settings.json *)
}.

Definition set_goals (g : list Goal) (a : App) : App :=
  mkApp g (current_font_size a) (status_text a) (status_color a)
        (data_file a) (settings_file a).

Definition set_font_size (n : number) (a : App) : App :=
  mkApp (goals a) n (status_text a) (status_color a)
        (data_file a) (settings_file a).

Definition write_data_file (g : list Goal) (a : App) : App :=
  mkApp (goals a) (current_font_size a) (status_text a) (status_color a)
        (Some (Json g)) (settings_file a).

Definition write_settings_file (j : json) (a : App) : App :=
  mkApp (goals a) (current_font_size a) (status_text a) (status_color a)
        (data_file a) (Some (Json j)).

Definition update_status (message color : string) (a : App) : App :=
  mkApp (goals a) (current_font_size a) message color
        (data_file a) (settings_file a).

(** ** Settings *)

Inductive Raised := JSONDecodeError | TypeError | AttributeError.

(** [settings_data.get(key, default)]; only a [dict] has [get]. *)
Fixpoint assoc (key : string) (items : list (string * json)) : option json :=
  match items with
  | [] => None
  | (k, v) :: items' => if String.eqb k key then Some v else assoc key items'
  end.

Definition dict_get (settings_data : json) (key : string) (default : json)
  : Raised + json :=
  match settings_data with
  | JObj items =>
      inr (match assoc key items with Some v => v | None => default end)
  | _ => inl AttributeError
  end.

(** The operand of a comparison with an [int]: a [bool] counts as 0 or 1;
    [None], strings, lists and dicts raise [TypeError]. *)
Definition as_number (v : json) : Raised + number :=
  match v with
  | JNum n => inr n
  | JBool b => inr (Int (if b then 1 else 0))
  | _ => inl TypeError
  end.

(** [lo <= n <= hi] *)
Definition between (lo hi : Z) (n : number) : bool :=
  match n with
  | Int z => (lo <=? z) && (z <=? hi)
  | Float q => Qle_bool (inject_Z lo) q && Qle_bool q (inject_Z hi)
  | NonFinite => false
  end.

Definition save_settings (a : App) : App :=
  let settings_data := JObj [("font_size", JNum (current_font_size a))] in
  write_settings_file settings_data a.

(** The body of the [try] of [load_settings]. *)
Definition load_settings_try (a : App) : Raised + App :=
  match settings_file a with
  | Some Malformed => inl JSONDecodeError
  | Some (Json settings_data) =>
      match dict_get settings_data "font_size" (JNum (Int DEFAULT_FONT_SIZE)) with
      | inl e => inl e
      | inr loaded_size =>
          match as_number loaded_size with
          | inl e => inl e
          | inr n =>
              if between MIN_FONT_SIZE MAX_FONT_SIZE n
              then inr (set_font_size n a)
              else inr (save_settings (set_font_size (Int DEFAULT_FONT_SIZE) a))
          end
      end
  | None => inr (save_settings (set_font_size (Int DEFAULT_FONT_SIZE) a))
  end.

Definition load_settings (a : App) : App :=
  match load_settings_try a with
  | inr a' => a'
  | inl JSONDecodeError | inl TypeError =>
      save_settings (set_font_size (Int DEFAULT_FONT_SIZE) a)
  | inl AttributeError =>
      set_font_size (Int DEFAULT_FONT_SIZE) a
  end.

(** ** Goals *)

Definition DATA_FILE : string := "goals_data.json".

Definition load_goals (a : App) : App :=
  match data_file a with
  | Some (Json v) => set_goals v a
  | Some Malformed =>
      set_goals []
        (update_status ("Warning: Could not read " ++ DATA_FILE ++ ". Starting fresh.")
                       "orange" a)
  | None => set_goals [] a
  end.

(** The key functions of the three sorts. *)
Definition save_key (x : Goal) : string := get (date x) "0000-00-00".
Definition display_key (x : Goal) : string := get (date x) "9999-12-31".
Definition display_date_key (x : Goal) : option PyDate.date :=
  PyDate.fromisoformat (display_key x).

Definition save_goals (a : App) : App :=
  let sorted := list_sort_total PyStr.lt save_key (goals a) in
  write_data_file sorted (set_goals sorted a).

Definition SORT_WARNING : string :=
  "Warning: Invalid date found in saved data during sorting.".

(** [update_display], as far as the state goes: the early [return] on an
    empty list, the sort by parsed date, and on [ValueError] the warning and
    the sort by string. *)
Definition update_display (a : App) : App :=
  match goals a with
  | [] => a
  | _ :: _ =>
      match list_sort PyDate.lt display_date_key (goals a) with
      | Some sorted => set_goals sorted a
      | None =>
          let a := update_status SORT_WARNING "orange" a in
          set_goals (list_sort_total PyStr.lt display_key (goals a)) a
      end
  end.

(** The [return] sites of [add_goal], in the order of the source. *)
Inductive AddResult :=
| EmptyName          (* "Goal name cannot be empty." *)
| EmptyDate          (* "Date cannot be empty." *)
| InvalidDate        (* "Invalid date format. Use YYYY-MM-DD." *)
| DuplicateName      (* "Goal '...' already exists." *)
| CapacityExceeded   (* "Cannot add more than 10 goals." *)
| Added.             (* "Goal '...' added successfully!" *)

Definition is_empty (s : string) : bool :=
  match s with
  | EmptyString => true
  | String _ _ => false
  end.

(** The test of the duplicate loop on one existing goal. *)
Definition same_name (goal_name : string) (existing_goal : Goal) : bool :=
  String.eqb (PyStr.lower (get (name existing_goal) EmptyString))
             (PyStr.lower goal_name).

Definition len {A : Type} (l : list A) : Z := Z.of_nat (List.length l).

(** [add_goal]; the two arguments are the texts of the entry widgets. *)
Definition add_goal (entry_goal entry_date : string) (a : App) : AddResult * App :=
  let goal_name := PyStr.strip entry_goal in
  let goal_date_str := PyStr.strip entry_date in
  if is_empty goal_name then
    (EmptyName, update_status "Goal name cannot be empty." "orange" a)
  else if is_empty goal_date_str then
    (EmptyDate, update_status "Date cannot be empty." "orange" a)
  else
    match PyDate.fromisoformat goal_date_str with
    | None =>
        (InvalidDate, update_status "Invalid date format. Use YYYY-MM-DD." "red" a)
    | Some valid_date =>
        if existsb (same_name goal_name) (goals a) then
          (DuplicateName,
           update_status ("Goal '" ++ goal_name ++ "' already exists.") "orange" a)
        else if MAX_GOALS <=? len (goals a) then
          (CapacityExceeded,
           update_status ("Cannot add more than " ++ PyStr.str MAX_GOALS ++ " goals.")
                         "orange" a)
        else
          let new_goal := mkGoal (Some goal_name) (Some goal_date_str) in
          let a := set_goals (goals a ++ [new_goal])%list a in
          let a := save_goals a in
          let a := update_display a in
          (Added,
           update_status ("Goal '" ++ goal_name ++ "' added successfully!") "green" a)
    end.

(** The branches of [delete_goal]. *)
Inductive DeleteResult :=
| Deleted (removed_goal : Goal)   (* "Goal '...' deleted." *)
| PopIndexError                   (* the [except IndexError] handler *)
| IndexOutOfRange.                (* "Error: Could not delete goal (invalid index)." *)

(** [l.pop(index)] for [0 <= index]: the element and the rest, or [None]
    for [IndexError]. *)
Fixpoint pop {A : Type} (l : list A) (index : nat) : option (A * list A) :=
  match l, index with
  | [], _ => None
  | x :: l', O => Some (x, l')
  | x :: l', S i =>
      match pop l' i with
      | Some (y, r) => Some (y, x :: r)
      | None => None
      end
  end.

Definition delete_goal (index : Z) (a : App) : DeleteResult * App :=
  if (0 <=? index) && (index <? len (goals a)) then
    match pop (goals a) (Z.to_nat index) with
    | Some (removed_goal, rest) =>
        let a := set_goals rest a in
        let a := save_goals a in
        let a := update_display a in
        (Deleted removed_goal,
         update_status ("Goal '" ++ get (name removed_goal) "Unknown" ++ "' deleted.")
                       "#A9A9A9" a)
    | None =>
        let a := update_status
                   "Error: Could not delete goal (index issue). Refreshing." "red" a in
        (PopIndexError, update_display a)
    end
  else
    (IndexOutOfRange,
     update_status "Error: Could not delete goal (invalid index)." "red" a).

(** What the display shows: the goal list after [update_display] has
    sorted it. *)
Definition listSortedByDate (a : App) : list Goal := goals (update_display a).

(** ** Notions used to state the properties *)

(** *** The reference definition of the formatter

    [elapsed_spec] follows the words of the specification of the
    elapsed-time formatter: parse; negative difference; zero difference;
    otherwise the clauses for [deltaDays // 365] years and
    [deltaDays % 365] days.  The specification fixes no wording for the
    future-date message, so the reference takes the program's. *)




(** *** Invariants of the goal list *)

(** The text the duplicate test of [add_goal] compares. *)
Definition name_key (g : Goal) : string :=
  PyStr.lower (get (name g) EmptyString).

(** No two records carry names that are equal up to case. *)
Definition unique_names (l : list Goal) : Prop := NoDup (map name_key l).

(** Ascending by a string key, under the order of Python strings. *)
Definition ascending_by (key : Goal -> string) (l : list Goal) : Prop :=
  StronglySorted (fun x y => PyStr.le (key x) (key y) = true) l.

(** Ascending by the date strings of the records that have one. *)
Definition date_strings_ascending (l : list Goal) : Prop :=
  StronglySorted
    (fun x y => forall dx dy, date x = Some dx -> date y = Some dy ->
                              PyStr.le dx dy = true) l.

(** Ascending by the parsed date, every record's date parsing. *)
Definition ascending_by_date (l : list Goal) : Prop :=
  StronglySorted
    (fun x y => match display_date_key x, display_date_key y with
                | Some dx, Some dy => PyDate.le dx dy = true
                | _, _ => False
                end) l.

Definition Goal_eq_dec (x y : Goal) : {x = y} + {x <> y}.
Proof. repeat decide equality. Defined.

(** The number of records of [l] equal to [g]. *)
Definition occurrences (g : Goal) (l : list Goal) : nat :=
  count_occ Goal_eq_dec l g.

(** *** The states [add_goal] and [delete_goal] end in when they go through *)

Definition added_state (goal_name goal_date_str : string) (a : App) : App :=
  update_status ("Goal '" ++ goal_name ++ "' added successfully!") "green"
    (update_display
       (save_goals
          (set_goals (goals a ++ [mkGoal (Some goal_name) (Some goal_date_str)])%list a))).

Definition deleted_state (removed_goal : Goal) (rest : list Goal) (a : App) : App :=
  update_status ("Goal '" ++ get (name removed_goal) "Unknown" ++ "' deleted.") "#A9A9A9"
    (update_display (save_goals (set_goals rest a))).

(** *** Sample states *)

Definition goal (n d : string) : Goal := mkGoal (Some n) (Some d).

(** A running application whose data file mirrors its goal list. *)
Definition app_with (l : list Goal) : App :=
  mkApp l (Int DEFAULT_FONT_SIZE) EmptyString "gray" (Some (Json l)) None.

(** The application as [load_settings] finds it at start-up, with the
    given settings file. *)
Definition app_at_startup (settings : option (FileText json)) : App :=
  mkApp [] (Int DEFAULT_FONT_SIZE) EmptyString "gray" None settings.

(** The application at start-up, before [load_goals], with the given data
    file. *)
Definition app_at_startup_with_data (data : option (FileText (list Goal))) : App :=
  mkApp [] (Int DEFAULT_FONT_SIZE) EmptyString "gray" data None.

Definition ten_goals : list Goal :=
  [ goal "alcohol" "2019-03-01"; goal "biting nails" "2019-07-14";
    goal "caffeine" "2020-01-01"; goal "doomscrolling" "2020-02-29";
    goal "energy drinks" "2020-11-30"; goal "fast food" "2021-05-05";
    goal "gambling" "2021-12-31"; goal "hitting snooze" "2022-06-15";
    goal "impulse buys" "2023-01-01"; goal "junk mail" "2023-08-08" ].

(** *** Settings *)

Definition font_size_file (n : Z) : option (FileText json) :=
  Some (Json (JObj [("font_size", JNum (Int n))])).

(** The [font_size] entry of the settings file, when the file holds a
    [dict] that has one. *)
Definition stored_font_size (a : App) : option json :=
  match settings_file a with
  | Some (Json (JObj items)) => assoc "font_size" items
  | _ => None
  end.

(** The settings file holds a [dict] without a [font_size] entry. *)
Definition font_size_key_missing (a : App) : Prop :=
  exists items, settings_file a = Some (Json (JObj items))
                /\ assoc "font_size" items = None.

(** A stored value that is a number within the bounds. *)
Definition in_font_range (v : json) : bool :=
  match as_number v with
  | inr n => between MIN_FONT_SIZE MAX_FONT_SIZE n
  | inl _ => false
  end.

(** * The rest of the program

    What follows embeds the parts of [goals_app.py] that surround the goal
    store and the formatter: the font-size callback, the constructor, the
    rows that [update_display] draws, the encouragement picker and the
    timer of the status label. *)

(** ** [int(s)] *)

Module PyInt.

(** Decimal digits, single underscores allowed between two digits;
    [after_digit] tells whether the previous character was a digit. *)
Fixpoint digits (acc : Z) (after_digit : bool) (s : string) : option Z :=
  match s with
  | EmptyString => if after_digit then Some acc else None
  | String c s' =>
      match PyDate.digit c with
      | Some v => digits (10 * acc + v) true s'
      | None =>
          if Ascii.eqb c "_" && after_digit then digits acc false s' else None
      end
  end.

(** [int(s)] for a string: surrounding whitespace, an optional sign, the
    digits; [None] is the [ValueError].  (The limit that recent
    interpreters put on the number of digits is left out; a numeral that
    long is far outside every range the program tests.) *)
Definition int (s : string) : option Z :=
  match PyStr.strip s with
  | String "+" r => digits 0 false r
  | String "-" r => option_map Z.opp (digits 0 false r)
  | r => digits 0 false r
  end.

End PyInt.

(** ** Encouragement *)

Definition ENCOURAGING_WORDS : list string :=
  [ "You've got this!"; "Keep going strong!"; "Amazing progress!";
    "One day at a time!"; "You're doing great!"; "Stay focused!";
    "Incredible work!"; "Persistence pays off!"; "Keep pushing forward!";
    "Celebrate this milestone!"; "Look how far you've come!";
    "Keep up the momentum!" ].

(** [random.choice(ENCOURAGING_WORDS)], that is
    [ENCOURAGING_WORDS[randbelow(len(ENCOURAGING_WORDS))]]; [randbelow] is
    the generator's draw, below its argument. *)
Definition get_random_encouragement (randbelow : nat -> nat) : string :=
  nth (randbelow (List.length ENCOURAGING_WORDS)) ENCOURAGING_WORDS EmptyString.

(** ** The rows of the display *)

(** One row of the scrollable frame: the text of its label and the index
    its Delete button passes to [delete_goal]. *)
Record Row := mkRow { info_text : string; delete_command : Z }.

Inductive Frame :=
| NoGoalsLabel (text : string)
| GoalRows (rows : list Row).

Definition LINE_FEED : string := String "010" EmptyString.

(** The body of the [for index, goal in enumerate(self.goals)] loop;
    [randbelow] is the draw made for this row.  The pin and the branch of
    the label are carried as their UTF-8 bytes. *)
Definition display_row (clk : Clock) (randbelow : nat -> nat)
           (index : nat) (goal : Goal) : Row :=
  let goal_name := get (name goal) "Unnamed Goal" in
  let goal_date := get (date goal) "No Date" in
  let elapsed_str := fst (calculate_time_elapsed clk goal_date) in
  let encouragement := get_random_encouragement randbelow in
  mkRow ("📌 " ++ goal_name ++ " (Since: " ++ goal_date ++ ")" ++ LINE_FEED
           ++ "   └── " ++ elapsed_str ++ " - " ++ encouragement)
        (Z.of_nat index).

Fixpoint display_rows (clk : Clock) (draws : nat -> nat -> nat)
         (index : nat) (l : list Goal) : list Row :=
  match l with
  | [] => []
  | goal :: l' =>
      display_row clk (draws index) index goal
      :: display_rows clk draws (S index) l'
  end.

(** What [update_display] leaves in the frame; [draws index] is the draw of
    the generator for the row [index]. *)
Definition display_frame (clk : Clock) (draws : nat -> nat -> nat) (a : App) : Frame :=
  match goals a with
  | [] => NoGoalsLabel "No goals added yet. Add one above!"
  | _ :: _ => GoalRows (display_rows clk draws 0 (goals (update_display a)))
  end.

(** ** The font-size callback *)

(** [new_size != self.current_font_size] *)
Definition differs (new_size : Z) (current : number) : bool :=
  match current with
  | Int z => negb (new_size =? z)
  | Float q => negb (Qeq_bool (inject_Z new_size) q)
  | NonFinite => true
  end.

(** [_apply_global_font_settings], as far as the state goes: the widgets
    are reconfigured and the goal list is redrawn. *)
Definition _apply_global_font_settings (a : App) : App := update_display a.

(** [font_size_changed]; reverting the combo box is the only effect of the
    two refusals. *)
Definition font_size_changed (selected_size_str : string) (a : App) : App :=
  match PyInt.int selected_size_str with
  | Some new_size =>
      if (MIN_FONT_SIZE <=? new_size) && (new_size <=? MAX_FONT_SIZE) then
        if differs new_size (current_font_size a) then
          let a := set_font_size (Int new_size) a in
          let a := _apply_global_font_settings a in
          save_settings a
        else a
      else a
  | None => a
  end.

(** ** The constructor and the event loop *)

(** [__init__], for a data file that is absent ([None]) or holds a list of
    goals: settings are loaded, then the goals, then the display is drawn.
    (A data file that is not JSON is left out: [load_goals] would report
    it through the status label, which the constructor has not yet
    created at that point.) *)
Definition init (data : option (list Goal)) (settings : option (FileText json)) : App :=
  let a := mkApp [] (Int DEFAULT_FONT_SIZE) EmptyString "gray"
                 (option_map Json data) settings in
  let a := load_settings a in
  let a := load_goals a in
  update_display a.

(** What the user can do once the window is up. *)
Inductive Event :=
| ClickAdd (entry_goal entry_date : string)
| ClickDelete (index : Z)
| SelectFontSize (selected_size_str : string).

Definition handle (e : Event) (a : App) : App :=
  match e with
  | ClickAdd entry_goal entry_date => snd (add_goal entry_goal entry_date a)
  | ClickDelete index => snd (delete_goal index a)
  | SelectFontSize selected_size_str => font_size_changed selected_size_str a
  end.

Definition mainloop (events : list Event) (a : App) : App :=
  fold_left (fun a e => handle e a) events a.

(** ** The status label and its timer *)

(** The label, the job [update_status] remembers, and the timers Tk holds
    ([after] hands out fresh identifiers). *)
Record StatusLabel := mkStatusLabel {
  label_text : string;
  label_color : string;
  status_clear_job : option nat;
  timers : list nat;
  next_timer : nat
}.

Definition after_cancel (job : nat) (s : StatusLabel) : StatusLabel :=
  mkStatusLabel (label_text s) (label_color s) (status_clear_job s)
                (List.remove Nat.eq_dec job (timers s)) (next_timer s).

(** [update_status], with its timer. *)
Definition update_status_label (message color : string) (s : StatusLabel)
  : StatusLabel :=
  let s := mkStatusLabel message color (status_clear_job s)
                         (timers s) (next_timer s) in
  let s := match status_clear_job s with
           | Some job => after_cancel job s
           | None => s
           end in
  if negb (String.eqb color "red") then
    mkStatusLabel (label_text s) (label_color s) (Some (next_timer s))
                  (next_timer s :: timers s) (S (next_timer s))
  else
    mkStatusLabel (label_text s) (label_color s) None (timers s) (next_timer s).

(** A timer expires after [STATUS_CLEAR_DELAY_MS]: its callback empties the
    label.  An identifier Tk no longer holds does nothing. *)
Definition STATUS_CLEAR_DELAY_MS : Z := 5000.

Definition timer_expires (job : nat) (s : StatusLabel) : StatusLabel :=
  if in_dec Nat.eq_dec job (timers s) then
    mkStatusLabel EmptyString (label_color s) (status_clear_job s)
                  (List.remove Nat.eq_dec job (timers s)) (next_timer s)
  else s.

Inductive StatusEvent :=
| Report (message color : string)
| Expire (job : nat).

Definition status_step (e : StatusEvent) (s : StatusLabel) : StatusLabel :=
  match e with
  | Report message color => update_status_label message color s
  | Expire job => timer_expires job s
  end.

Definition status_run (events : list StatusEvent) (s : StatusLabel) : StatusLabel :=
  fold_left (fun s e => status_step e s) events s.

(** The label as the constructor creates it. *)
Definition initial_status_label : StatusLabel :=
  mkStatusLabel EmptyString "gray" None [] 0.

(** ** Notions used to state the further properties *)

(** At most one timer is pending, and it is the job on record. *)
Definition one_timer (s : StatusLabel) : Prop :=
  timers s = []
  \/ exists job, status_clear_job s = Some job /\ timers s = [job].


(** A record as [add_goal] builds it: a trimmed, non-empty name and a date
    that parses. *)
Definition well_formed (g : Goal) : Prop :=
  exists n d, g = mkGoal (Some n) (Some d)
              /\ PyStr.strip n = n /\ is_empty n = false
              /\ PyDate.fromisoformat d <> None.

(** The data file holds the list in memory, or there is no file and no
    goal yet. *)
Definition in_sync (a : App) : Prop :=
  data_file a = Some (Json (goals a))
  \/ (data_file a = None /\ goals a = []).

(** The state of a session that the program itself has built. *)
Definition consistent (a : App) : Prop :=
  unique_names (goals a)
  /\ len (goals a) <= MAX_GOALS
  /\ Forall well_formed (goals a)
  /\ ascending_by display_key (goals a)
  /\ in_sync a
  /\ between MIN_FONT_SIZE MAX_FONT_SIZE (current_font_size a) = true
  /\ current_font_size (load_settings a) = current_font_size a.

(** The list without its element at position [i]. *)
Definition without (i : nat) (l : list Goal) : list Goal :=
  (firstn i l ++ skipn (S i) l)%list.


(** * Properties *)

(** ** The stable sort *)

Section ListSortFacts.
Context {K A : Type}.
Variable ltb : K -> K -> bool.

Hypothesis ltb_asym : forall a b, ltb a b = true -> ltb b a = false.
Hypothesis not_above_trans :
  forall a b c, not_above ltb a b -> not_above ltb b c -> not_above ltb a c.

Lemma insert_keyed_Permutation (x : K * A) (l : list (K * A)) :
  Permutation (insert_keyed ltb x l) (x :: l).
Proof.
  induction l as [|y l IH]; simpl.
  - apply Permutation_refl.
  - destruct (ltb (fst y) (fst x)).
    + rewrite IH. apply perm_swap.
    + apply Permutation_refl.
Qed.

Lemma sort_keyed_Permutation (l : list (K * A)) :
  Permutation (sort_keyed ltb l) l.
Proof.
  induction l as [|x l IH]; simpl.
  - constructor.
  - rewrite insert_keyed_Permutation. now constructor.
Qed.

Lemma insert_keyed_ascending (x : K * A) (l : list (K * A)) :
  keys_ascending ltb l -> keys_ascending ltb (insert_keyed ltb x l).
Proof.
  unfold keys_ascending.
  induction l as [|y l IH]; simpl; intros Hs.
  - constructor; [constructor | constructor].
  - inversion Hs as [|y' l' Hl Hy]; subst.
    destruct (ltb (fst y) (fst x)) eqn:E.
    + constructor; [now apply IH |].
      apply (Permutation_Forall (Permutation_sym (insert_keyed_Permutation x l))).
      constructor; [| exact Hy].
      now apply ltb_asym.
    + constructor; [exact Hs |].
      constructor; [exact E |].
      eapply Forall_impl; [| exact Hy].
      intros z Hz. now apply (not_above_trans _ (fst y)).
Qed.

Lemma sort_keyed_ascending (l : list (K * A)) :
  keys_ascending ltb (sort_keyed ltb l).
Proof.
  induction l as [|x l IH]; simpl.
  - constructor.
  - now apply insert_keyed_ascending.
Qed.

(** Stability: the elements that satisfy any test closed under "same
    key" keep their relative order. *)
Lemma insert_keyed_filter (f : K * A -> bool) (x : K * A) (l : list (K * A)) :
  (forall y, f x = true -> f y = true -> ltb (fst y) (fst x) = false) ->
  filter f (insert_keyed ltb x l) = filter f (x :: l).
Proof.
  intros Hf.
  induction l as [|y l IH]; simpl; [reflexivity |].
  destruct (ltb (fst y) (fst x)) eqn:E; [| reflexivity].
  simpl. rewrite IH. simpl.
  pose proof (Hf y) as Hy.
  destruct (f x), (f y); try reflexivity.
  rewrite (Hy eq_refl eq_refl) in E. discriminate.
Qed.

Lemma sort_keyed_stable (f : K * A -> bool) (l : list (K * A)) :
  (forall x y, f x = true -> f y = true -> ltb (fst y) (fst x) = false) ->
  filter f (sort_keyed ltb l) = filter f l.
Proof.
  intros Hf.
  induction l as [|x l IH]; simpl; [reflexivity |].
  rewrite insert_keyed_filter by (intros y; apply Hf).
  simpl. now rewrite IH.
Qed.

(** *** Decoration *)

Lemma decorate_Some (key : A -> option K) (l : list A) (kl : list (K * A)) :
  decorate key l = Some kl ->
  map snd kl = l /\ Forall (fun p => key (snd p) = Some (fst p)) kl.
Proof.
  revert kl.
  induction l as [|x l IH]; simpl; intros kl H.
  - inversion H. split; constructor.
  - destruct (key x) as [k|] eqn:Ek; [| discriminate].
    destruct (decorate key l) as [kl'|]; [| discriminate].
    inversion H; subst; clear H.
    destruct (IH kl' eq_refl) as [Hm Hf].
    split; simpl; [now rewrite Hm | now constructor].
Qed.

Lemma decorate_None (key : A -> option K) (l : list A) :
  decorate key l = None <-> exists x, In x l /\ key x = None.
Proof.
  induction l as [|x l IH]; simpl.
  - split; [discriminate | intros [x [[] _]]].
  - destruct (key x) as [k|] eqn:Ek.
    + destruct (decorate key l) as [kl|].
      * split; [discriminate |].
        intros [y [[<- | Hy] Hn]]; [congruence |].
        assert (Hc : Some kl = None) by (apply IH; now exists y).
        discriminate Hc.
      * split; [| reflexivity].
        intros _. destruct IH as [IH _].
        destruct (IH eq_refl) as [y [Hy Hn]].
        exists y. auto.
    + split; [| reflexivity].
      intros _. exists x. auto.
Qed.

Lemma decorate_total (key : A -> K) (l : list A) :
  decorate (fun x => Some (key x)) l = Some (map (fun x => (key x, x)) l).
Proof.
  induction l as [|x l IH]; simpl; [reflexivity | now rewrite IH].
Qed.

(** *** The sort itself *)

Lemma list_sort_None (key : A -> option K) (l : list A) :
  list_sort ltb key l = None <-> exists x, In x l /\ key x = None.
Proof.
  unfold list_sort. rewrite <- decorate_None.
  destruct (decorate key l); split; congruence.
Qed.

Lemma list_sort_Some (key : A -> option K) (l sorted : list A) :
  list_sort ltb key l = Some sorted ->
  Permutation sorted l /\ StronglySorted (key_le ltb key) sorted.
Proof.
  unfold list_sort.
  destruct (decorate key l) as [kl|] eqn:D; [| discriminate].
  intros H; inversion H; subst; clear H.
  destruct (decorate_Some _ _ _ D) as [Hm Hf].
  split.
  - rewrite <- Hm. apply Permutation_map, sort_keyed_Permutation.
  - assert (Hf' : Forall (fun p => key (snd p) = Some (fst p)) (sort_keyed ltb kl))
      by (apply (Permutation_Forall (Permutation_sym (sort_keyed_Permutation kl)));
          exact Hf).
    pose proof (sort_keyed_ascending kl) as Hs.
    unfold keys_ascending in Hs.
    induction Hs as [|p rest Hs IH Hp]; simpl; constructor.
    + apply IH. now inversion Hf'.
    + inversion Hf' as [|? ? Kp Krest]; subst.
      apply Forall_forall. intros y Hy.
      apply in_map_iff in Hy. destruct Hy as [q [<- Hq]].
      unfold key_le. rewrite Kp.
      rewrite Forall_forall in Krest, Hp.
      rewrite (Krest q Hq). now apply Hp.
Qed.

Lemma list_sort_total_eq (key : A -> K) (l : list A) :
  list_sort ltb (fun x => Some (key x)) l = Some (list_sort_total ltb key l).
Proof.
  unfold list_sort, list_sort_total. now rewrite decorate_total.
Qed.

Lemma list_sort_total_Permutation (key : A -> K) (l : list A) :
  Permutation (list_sort_total ltb key l) l.
Proof.
  now destruct (list_sort_Some _ _ _ (list_sort_total_eq key l)).
Qed.

Lemma list_sort_total_ascending (key : A -> K) (l : list A) :
  StronglySorted (fun x y => not_above ltb (key x) (key y)) (list_sort_total ltb key l).
Proof.
  destruct (list_sort_Some _ _ _ (list_sort_total_eq key l)) as [_ H].
  exact H.
Qed.
End ListSortFacts.

(** ** Orders on strings and dates *)

Lemma string_ltb_cons (c c' : ascii) (s s' : string) :
  String.ltb (String c s) (String c' s')
  = if PyStr.code c <? PyStr.code c' then true
    else if PyStr.code c =? PyStr.code c' then String.ltb s s' else false.
Proof.
  unfold String.ltb, PyStr.code. simpl. unfold Ascii.compare.
  rewrite <- N2Z.inj_compare.
  destruct (Z.compare_spec (Z.of_N (N_of_ascii c)) (Z.of_N (N_of_ascii c'))) as [E|E|E].
  - rewrite E, Z.ltb_irrefl, Z.eqb_refl. reflexivity.
  - apply Z.ltb_lt in E. now rewrite E.
  - destruct (Z.ltb_spec (Z.of_N (N_of_ascii c)) (Z.of_N (N_of_ascii c'))); [lia |].
    destruct (Z.eqb_spec (Z.of_N (N_of_ascii c)) (Z.of_N (N_of_ascii c'))); [lia |].
    reflexivity.
Qed.

Lemma string_lt_asym (a b : string) :
  PyStr.lt a b = true -> PyStr.lt b a = false.
Proof.
  unfold PyStr.lt, String.ltb. rewrite (String.compare_antisym b a).
  now destruct (String.compare a b).
Qed.

Lemma string_compare_le_trans (a b c : string) :
  String.compare a b <> Gt -> String.compare b c <> Gt -> String.compare a c <> Gt.
Proof.
  revert b c.
  induction a as [|x a IH]; intros [|y b] [|z c]; simpl; try congruence.
  unfold Ascii.compare.
  destruct (N.compare_spec (N_of_ascii x) (N_of_ascii y)) as [Exy|Exy|Exy];
    destruct (N.compare_spec (N_of_ascii y) (N_of_ascii z)) as [Eyz|Eyz|Eyz];
    destruct (N.compare_spec (N_of_ascii x) (N_of_ascii z)) as [Exz|Exz|Exz];
    try congruence; try lia.
  apply IH.
Qed.

Lemma string_not_above_trans (a b c : string) :
  not_above PyStr.lt a b -> not_above PyStr.lt b c -> not_above PyStr.lt a c.
Proof.
  unfold not_above, PyStr.lt, String.ltb.
  rewrite (String.compare_antisym b a), (String.compare_antisym c b),
          (String.compare_antisym c a).
  pose proof (string_compare_le_trans a b c) as T.
  destruct (String.compare a b), (String.compare b c), (String.compare a c);
    simpl; intros; try reflexivity; try discriminate;
    exfalso; apply T; congruence.
Qed.

Lemma date_lt_iff (a b : PyDate.date) :
  PyDate.lt a b = true <->
  (PyDate.year a < PyDate.year b
   \/ (PyDate.year a = PyDate.year b
       /\ (PyDate.month a < PyDate.month b
           \/ (PyDate.month a = PyDate.month b /\ PyDate.day a < PyDate.day b)))).
Proof.
  unfold PyDate.lt.
  rewrite !orb_true_iff, !andb_true_iff, orb_true_iff, andb_true_iff,
          !Z.ltb_lt, !Z.eqb_eq.
  reflexivity.
Qed.

Lemma date_lt_false_iff (a b : PyDate.date) :
  PyDate.lt a b = false <->
  ~ (PyDate.year a < PyDate.year b
     \/ (PyDate.year a = PyDate.year b
         /\ (PyDate.month a < PyDate.month b
             \/ (PyDate.month a = PyDate.month b /\ PyDate.day a < PyDate.day b)))).
Proof.
  rewrite <- date_lt_iff. now destruct (PyDate.lt a b).
Qed.

Lemma date_lt_asym (a b : PyDate.date) :
  PyDate.lt a b = true -> PyDate.lt b a = false.
Proof.
  rewrite date_lt_iff, date_lt_false_iff. lia.
Qed.

Lemma date_not_above_trans (a b c : PyDate.date) :
  not_above PyDate.lt a b -> not_above PyDate.lt b c -> not_above PyDate.lt a c.
Proof.
  unfold not_above. rewrite !date_lt_false_iff. lia.
Qed.

(** ** ISO date strings *)

Lemma digit_inv (c : ascii) (v : Z) :
  PyDate.digit c = Some v -> PyStr.code c = 48 + v /\ 0 <= v <= 9.
Proof.
  unfold PyDate.digit.
  destruct (Z.leb_spec 48 (PyStr.code c)), (Z.leb_spec (PyStr.code c) 57);
    cbn [andb]; intros E; inversion E; lia.
Qed.

Lemma digit_not_space (c : ascii) (v : Z) :
  PyDate.digit c = Some v -> PyStr.isspace c = false.
Proof.
  intros H. apply digit_inv in H. unfold PyStr.isspace.
  destruct (Z.leb_spec 9 (PyStr.code c)), (Z.leb_spec (PyStr.code c) 13),
           (Z.leb_spec 28 (PyStr.code c)), (Z.leb_spec (PyStr.code c) 32);
    cbn [andb orb]; try reflexivity; lia.
Qed.

(** The ten characters of a string that parses, and the fields they give. *)
Lemma fromisoformat_inv (s : string) (d : PyDate.date) :
  PyDate.fromisoformat s = Some d ->
  exists y1 y2 y3 y4 m1 m2 d1 d2,
    s = String y1 (String y2 (String y3 (String y4 (String "-"
          (String m1 (String m2 (String "-" (String d1 (String d2 EmptyString)))))))))
    /\ exists a1 a2 a3 a4 b1 b2 c1 c2,
      (PyDate.digit y1 = Some a1 /\ PyDate.digit y2 = Some a2
       /\ PyDate.digit y3 = Some a3 /\ PyDate.digit y4 = Some a4)
      /\ (PyDate.digit m1 = Some b1 /\ PyDate.digit m2 = Some b2)
      /\ (PyDate.digit d1 = Some c1 /\ PyDate.digit d2 = Some c2)
      /\ d = PyDate.mkdate (100 * (10 * a1 + a2) + (10 * a3 + a4))
                           (10 * b1 + b2) (10 * c1 + c2).
Proof.
  unfold PyDate.fromisoformat.
  do 10 (destruct s as [|? s]; [discriminate |]).
  destruct s; [| discriminate].
  cbn [list_ascii_of_string].
  repeat match goal with
         | |- context [Ascii.eqb ?x ?y] => destruct (Ascii.eqb_spec x y); [subst |]
         end; try discriminate.
  cbn [andb].
  unfold PyDate.digits4, PyDate.digits2.
  repeat match goal with
         | |- context [PyDate.digit ?x] =>
             let E := fresh "E" in destruct (PyDate.digit x) eqn:E; try discriminate
         end.
  destruct (PyDate.check_date_fields _ _ _); [| discriminate].
  intros H. inversion H; subst; clear H.
  do 8 eexists. split; [reflexivity |].
  do 8 eexists. repeat split; eassumption.
Qed.

Ltac digit_facts :=
  repeat match goal with
         | H : PyDate.digit _ = Some _ |- _ => apply digit_inv in H; destruct H
         end.

Ltac date_cmp :=
  match goal with
  | |- PyDate.lt _ _ = true => apply date_lt_iff
  | |- PyDate.lt _ _ = _ => apply date_lt_false_iff
  end;
  cbn [PyDate.year PyDate.month PyDate.day]; lia.

(** On strings that parse, the order of the dates is the order of the
    strings. *)
Lemma fromisoformat_lt (s1 s2 : string) (d1 d2 : PyDate.date) :
  PyDate.fromisoformat s1 = Some d1 ->
  PyDate.fromisoformat s2 = Some d2 ->
  PyDate.lt d1 d2 = PyStr.lt s1 s2.
Proof.
  intros H1 H2.
  apply fromisoformat_inv in H1, H2.
  destruct H1 as (y1 & y2 & y3 & y4 & m1 & m2 & e1 & e2 & -> & H1).
  destruct H1 as (a1 & a2 & a3 & a4 & b1 & b2 & c1 & c2 & (?&?&?&?) & (?&?) & (?&?) & ->).
  destruct H2 as (y1' & y2' & y3' & y4' & m1' & m2' & e1' & e2' & -> & H2).
  destruct H2 as (a1' & a2' & a3' & a4' & b1' & b2' & c1' & c2' & (?&?&?&?) & (?&?) & (?&?) & ->).
  digit_facts.
  unfold PyStr.lt.
  repeat (rewrite string_ltb_cons;
          match goal with
          | |- _ = (if ?a <? ?b then _ else _) =>
              destruct (Z.ltb_spec a b);
              [ date_cmp
              | destruct (Z.eqb_spec a b); [ | date_cmp ] ]
          end).
  date_cmp.
Qed.

Lemma fromisoformat_strip (s : string) (d : PyDate.date) :
  PyDate.fromisoformat s = Some d -> PyStr.strip s = s.
Proof.
  intros H. apply fromisoformat_inv in H.
  destruct H as (y1 & y2 & y3 & y4 & m1 & m2 & e1 & e2 & -> & H).
  destruct H as (a1 & a2 & a3 & a4 & b1 & b2 & c1 & c2 & (Hy&_) & _ & (_&He) & _).
  apply digit_not_space in Hy, He.
  unfold PyStr.strip. simpl. rewrite Hy. simpl. now rewrite He.
Qed.

Lemma fromisoformat_not_empty (s : string) (d : PyDate.date) :
  PyDate.fromisoformat s = Some d -> is_empty s = false.
Proof.
  destruct s; [discriminate | reflexivity].
Qed.

(** ** The elapsed-time formatter *)

Lemma div_mod_365 (n : Z) :
  n = 365 * (n / 365) + n mod 365 /\ 0 <= n mod 365 < 365.
Proof.
  split; [apply Z.div_mod; lia | apply Z.mod_pos_bound; lia].
Qed.

Lemma elapsed_parts_positive (delta_days : Z) :
  0 < delta_days ->
  elapsed_parts delta_days
  = app (if 0 <? delta_days / 365
         then [PyStr.str (delta_days / 365) ++ " year" ++ plural_s (1 <? delta_days / 365)]
         else [])
        (if 0 <? delta_days mod 365
         then [PyStr.str (delta_days mod 365) ++ " day"
                 ++ plural_s (negb (delta_days mod 365 =? 1))]
         else []).
Proof.
  intros Hpos. unfold elapsed_parts.
  replace (delta_days =? 0) with false by (symmetry; apply Z.eqb_neq; lia).
  rewrite orb_false_r.
  destruct (0 <? delta_days / 365), (0 <? delta_days mod 365); reflexivity.
Qed.

Example elapsed_three_years :
  calculate_time_elapsed (mkClock (PyDate.mkdate 2023 1 1) "2023-01-01 09:30") "2020-01-01"
  = ("3 years, 1 day ago", Some 1096).
Proof. reflexivity. Qed.

Example elapsed_today :
  calculate_time_elapsed (mkClock (PyDate.mkdate 2023 1 1) "2023-01-01 09:30") "2023-01-01"
  = ("Today is the day!", Some 0).
Proof. reflexivity. Qed.

Example elapsed_future :
  calculate_time_elapsed (mkClock (PyDate.mkdate 2023 1 1) "2023-01-01 09:30") "2099-01-01"
  = ("Date 2099-01-01 is in the future (current time: 2023-01-01 09:30).", None).
Proof. reflexivity. Qed.

Example elapsed_not_a_date :
  calculate_time_elapsed (mkClock (PyDate.mkdate 2023 1 1) "2023-01-01 09:30") "not-a-date"
  = ("Invalid Date Format (Use YYYY-MM-DD)", None).
Proof. reflexivity. Qed.

(** C10.  In the formatter, a positive day difference always builds at
    least one clause: a year clause when [years > 0], and when [years = 0]
    the remaining days are the whole difference, so a day clause.  The
    [elif not parts] fallback is therefore never the branch taken for a
    positive difference: the branch taken is the joined phrase. *)
Theorem C10_fallback_unreachable (delta_days : Z) :
  0 < delta_days ->
  elapsed_parts delta_days <> []
  /\ (0 < delta_days / 365 -> exists clause rest, elapsed_parts delta_days = clause :: rest
        /\ clause = PyStr.str (delta_days / 365) ++ " year" ++ plural_s (1 <? delta_days / 365))
  /\ (delta_days / 365 = 0 ->
      delta_days mod 365 = delta_days
      /\ elapsed_parts delta_days
         = [PyStr.str delta_days ++ " day" ++ plural_s (negb (delta_days =? 1))])
  /\ elapsed_branch delta_days = BranchJoined
  /\ elapsed_branch delta_days <> BranchFallback.
Proof.
  intros Hpos.
  pose proof (div_mod_365 delta_days) as [Hdm Hm].
  assert (Hy : 0 <= delta_days / 365) by (apply Z.div_pos; lia).
  assert (Hne : elapsed_parts delta_days <> []).
  { rewrite elapsed_parts_positive by assumption.
    destruct (Z.ltb_spec 0 (delta_days / 365)); [discriminate |].
    destruct (Z.ltb_spec 0 (delta_days mod 365)); [discriminate | lia]. }
  assert (Hb : elapsed_branch delta_days = BranchJoined).
  { unfold elapsed_branch.
    destruct (Z.eqb_spec delta_days 0); [lia |].
    destruct (elapsed_parts delta_days); [congruence | reflexivity]. }
  split; [exact Hne |].
  split; [| split; [| split]].
  - intros Hyears. rewrite elapsed_parts_positive by assumption.
    apply Z.ltb_lt in Hyears. rewrite Hyears.
    eexists. eexists. split; reflexivity.
  - intros Hzero.
    assert (Hmod : delta_days mod 365 = delta_days) by lia.
    split; [exact Hmod |].
    rewrite elapsed_parts_positive by assumption.
    rewrite Hmod, Hzero. cbn [Z.ltb Z.compare app].
    apply Z.ltb_lt in Hpos. now rewrite Hpos.
  - exact Hb.
  - rewrite Hb. discriminate.
Qed.

Lemma C10_fallback_unreachable_witness :
  0 < 400
  /\ elapsed_parts 400 = ["1 year"; "35 days"]
  /\ elapsed_branch 400 <> BranchFallback.
Proof.
  split; [lia |].
  split; [reflexivity |].
  apply (C10_fallback_unreachable 400). lia.
Defined.


(** ** The goal list under the three sorts *)

Lemma StronglySorted_weaken {A : Type} (R R' : A -> A -> Prop) (l : list A) :
  (forall x y, In x l -> In y l -> R x y -> R' x y) ->
  StronglySorted R l -> StronglySorted R' l.
Proof.
  intros Himp Hs.
  induction Hs as [|x l Hs IH Hx]; constructor.
  - apply IH. intros; apply Himp; simpl; auto.
  - rewrite Forall_forall in *. intros y Hy.
    apply Himp; simpl; auto.
Qed.

Lemma string_le_not_above (a b : string) :
  PyStr.le a b = true <-> not_above PyStr.lt a b.
Proof.
  unfold PyStr.le, not_above, PyStr.lt. apply negb_true_iff.
Qed.

Lemma date_le_not_above (a b : PyDate.date) :
  PyDate.le a b = true <-> not_above PyDate.lt a b.
Proof.
  unfold PyDate.le, not_above. apply negb_true_iff.
Qed.

Lemma sort_by_string_ascending (key : Goal -> string) (l : list Goal) :
  ascending_by key (list_sort_total PyStr.lt key l).
Proof.
  unfold ascending_by.
  eapply StronglySorted_weaken;
    [| apply (list_sort_total_ascending PyStr.lt string_lt_asym string_not_above_trans)].
  intros x y _ _ H. now apply string_le_not_above.
Qed.

Lemma sort_by_string_Permutation (key : Goal -> string) (l : list Goal) :
  Permutation (list_sort_total PyStr.lt key l) l.
Proof.
  apply (list_sort_total_Permutation PyStr.lt string_lt_asym string_not_above_trans).
Qed.

Lemma sort_by_date_Some (l sorted : list Goal) :
  list_sort PyDate.lt display_date_key l = Some sorted ->
  Permutation sorted l /\ ascending_by_date sorted.
Proof.
  intros H.
  destruct (list_sort_Some PyDate.lt date_lt_asym date_not_above_trans _ _ _ H)
    as [Hp Hs].
  split; [exact Hp |].
  unfold ascending_by_date.
  eapply StronglySorted_weaken; [| exact Hs].
  intros x y _ _. unfold key_le.
  destruct (display_date_key x), (display_date_key y); try tauto.
  apply date_le_not_above.
Qed.



Lemma ascending_by_save_key_dates (l : list Goal) :
  ascending_by save_key l -> date_strings_ascending l.
Proof.
  unfold ascending_by, date_strings_ascending.
  apply StronglySorted_weaken.
  intros x y _ _ H dx dy Hx Hy.
  unfold save_key in H. now rewrite Hx, Hy in H.
Qed.

(** *** [save_goals] *)

Lemma save_goals_goals (a : App) :
  goals (save_goals a) = list_sort_total PyStr.lt save_key (goals a).
Proof. reflexivity. Qed.

Lemma save_goals_data_file (a : App) :
  data_file (save_goals a) = Some (Json (goals (save_goals a))).
Proof. reflexivity. Qed.

Lemma save_goals_Permutation (a : App) :
  Permutation (goals (save_goals a)) (goals a).
Proof. rewrite save_goals_goals. apply sort_by_string_Permutation. Qed.

Lemma save_goals_ascending (a : App) :
  ascending_by save_key (goals (save_goals a)).
Proof. rewrite save_goals_goals. apply sort_by_string_ascending. Qed.

(** *** [update_display] *)

Lemma set_goals_same (a : App) : set_goals (goals a) a = a.
Proof. now destruct a. Qed.

(** The two ways [update_display] ends: the sort by date went through, or
    it raised and the fallback ran. *)
Lemma update_display_cases (a : App) :
  (exists sorted,
      list_sort PyDate.lt display_date_key (goals a) = Some sorted
      /\ update_display a = set_goals sorted a)
  \/ (list_sort PyDate.lt display_date_key (goals a) = None
      /\ update_display a
         = set_goals (list_sort_total PyStr.lt display_key (goals a))
                     (update_status SORT_WARNING "orange" a)).
Proof.
  unfold update_display.
  destruct (goals a) as [|g l] eqn:E.
  - left. exists []. split; [reflexivity |].
    rewrite <- E. symmetry. apply set_goals_same.
  - destruct (list_sort PyDate.lt display_date_key (g :: l)) as [sorted|].
    + left. now exists sorted.
    + right. split; [reflexivity |]. cbn [goals update_status]. now rewrite E.
Qed.

Lemma update_display_Permutation (a : App) :
  Permutation (goals (update_display a)) (goals a).
Proof.
  destruct (update_display_cases a) as [(sorted & Hs & ->) | (_ & ->)]; simpl.
  - now apply sort_by_date_Some.
  - apply sort_by_string_Permutation.
Qed.


Lemma update_display_files (a : App) :
  data_file (update_display a) = data_file a
  /\ settings_file (update_display a) = settings_file a
  /\ current_font_size (update_display a) = current_font_size a.
Proof.
  destruct (update_display_cases a) as [(sorted & Hs & ->) | (_ & ->)];
    simpl; auto.
Qed.

(** *** [pop] *)

Lemma pop_Some {A : Type} (l : list A) (i : nat) :
  (i < List.length l)%nat ->
  exists x rest, pop l i = Some (x, rest)
                 /\ nth_error l i = Some x
                 /\ rest = (firstn i l ++ skipn (S i) l)%list
                 /\ Permutation (x :: rest) l.
Proof.
  revert i.
  induction l as [|y l IH]; simpl; intros i Hi; [lia |].
  destruct i as [|i]; simpl.
  - exists y, l. repeat split. apply Permutation_refl.
  - destruct (IH i) as (x & rest & -> & Hn & Hr & Hp); [lia |].
    exists x, (y :: rest). repeat split; trivial.
    + now rewrite Hr.
    + rewrite perm_swap. now constructor.
Qed.

(** ** [add_goal] and [delete_goal], branch by branch *)

Lemma add_goal_cases (entry_goal entry_date : string) (a : App) :
  let goal_name := PyStr.strip entry_goal in
  let goal_date_str := PyStr.strip entry_date in
  (fst (add_goal entry_goal entry_date a) = Added
   /\ snd (add_goal entry_goal entry_date a) = added_state goal_name goal_date_str a
   /\ is_empty goal_name = false
   /\ PyDate.fromisoformat goal_date_str <> None
   /\ existsb (same_name goal_name) (goals a) = false
   /\ len (goals a) < MAX_GOALS)
  \/ (fst (add_goal entry_goal entry_date a) <> Added
      /\ exists message color,
          snd (add_goal entry_goal entry_date a) = update_status message color a).
Proof.
  intros goal_name goal_date_str. unfold add_goal.
  fold goal_name goal_date_str.
  destruct (is_empty goal_name) eqn:En;
    [right; split; [discriminate | do 2 eexists; reflexivity] |].
  destruct (is_empty goal_date_str);
    [right; split; [discriminate | do 2 eexists; reflexivity] |].
  destruct (PyDate.fromisoformat goal_date_str) eqn:Ed;
    [| right; split; [discriminate | do 2 eexists; reflexivity]].
  destruct (existsb (same_name goal_name) (goals a)) eqn:Ex;
    [right; split; [discriminate | do 2 eexists; reflexivity] |].
  destruct (Z.leb_spec MAX_GOALS (len (goals a)));
    [right; split; [discriminate | do 2 eexists; reflexivity] |].
  left. repeat split; trivial. discriminate.
Qed.

Lemma delete_goal_in_range (index : Z) (a : App) :
  0 <= index < len (goals a) ->
  exists removed_goal rest,
    delete_goal index a = (Deleted removed_goal, deleted_state removed_goal rest a)
    /\ nth_error (goals a) (Z.to_nat index) = Some removed_goal
    /\ rest = (firstn (Z.to_nat index) (goals a)
               ++ skipn (S (Z.to_nat index)) (goals a))%list
    /\ Permutation (removed_goal :: rest) (goals a).
Proof.
  intros Hi. unfold delete_goal, len in *.
  destruct (pop_Some (goals a) (Z.to_nat index)) as (x & rest & Hp & Hn & Hr & Hperm);
    [lia |].
  exists x, rest.
  replace ((0 <=? index) && (index <? Z.of_nat (List.length (goals a)))) with true
    by (symmetry; apply andb_true_iff; split; [apply Z.leb_le | apply Z.ltb_lt]; lia).
  rewrite Hp. auto.
Qed.

Lemma delete_goal_out_of_range (index : Z) (a : App) :
  ~ (0 <= index < len (goals a)) ->
  delete_goal index a
  = (IndexOutOfRange,
     update_status "Error: Could not delete goal (invalid index)." "red" a).
Proof.
  intros Hi. unfold delete_goal.
  destruct (Z.leb_spec 0 index), (Z.ltb_spec index (len (goals a)));
    simpl; try reflexivity; lia.
Qed.

(** *** Names stay unique *)

Lemma unique_names_Permutation (l l' : list Goal) :
  Permutation l l' -> unique_names l -> unique_names l'.
Proof.
  unfold unique_names. intros Hp.
  apply Permutation_NoDup. now apply Permutation_map.
Qed.

Lemma same_name_key (goal_name : string) (g : Goal) :
  same_name goal_name g = true <-> name_key g = PyStr.lower goal_name.
Proof. unfold same_name, name_key. apply String.eqb_eq. Qed.

Lemma no_same_name_not_In (goal_name : string) (l : list Goal) :
  existsb (same_name goal_name) l = false ->
  ~ In (PyStr.lower goal_name) (map name_key l).
Proof.
  intros He Hin. apply in_map_iff in Hin. destruct Hin as (g & Hk & Hg).
  assert (Ht : existsb (same_name goal_name) l = true).
  { apply existsb_exists. exists g. split; [exact Hg |]. now apply same_name_key. }
  congruence.
Qed.

Lemma unique_names_append (goal_name goal_date_str : string) (l : list Goal) :
  unique_names l ->
  existsb (same_name goal_name) l = false ->
  unique_names (l ++ [mkGoal (Some goal_name) (Some goal_date_str)]).
Proof.
  intros Hu He.
  apply (unique_names_Permutation (mkGoal (Some goal_name) (Some goal_date_str) :: l));
    [apply Permutation_cons_append |].
  unfold unique_names. simpl. constructor; [| exact Hu].
  now apply no_same_name_not_In.
Qed.

Lemma unique_names_NoDup (l : list Goal) : unique_names l -> NoDup l.
Proof. apply NoDup_map_inv. Qed.

Lemma save_goals_unique_names (a : App) :
  unique_names (goals a) -> unique_names (goals (save_goals a)).
Proof.
  apply unique_names_Permutation, Permutation_sym, save_goals_Permutation.
Qed.


Lemma added_state_Permutation (goal_name goal_date_str : string) (a : App) :
  Permutation (goals (added_state goal_name goal_date_str a))
              (goals a ++ [mkGoal (Some goal_name) (Some goal_date_str)]).
Proof.
  unfold added_state. cbn [goals update_status].
  rewrite update_display_Permutation, save_goals_Permutation.
  apply Permutation_refl.
Qed.

Lemma deleted_state_Permutation (removed_goal : Goal) (rest : list Goal) (a : App) :
  Permutation (goals (deleted_state removed_goal rest a)) rest.
Proof.
  unfold deleted_state. cbn [goals update_status].
  rewrite update_display_Permutation, save_goals_Permutation.
  apply Permutation_refl.
Qed.



(** ** The goal store *)

Lemma add_goal_Added (entry_goal entry_date : string) (d : PyDate.date) (a : App) :
  is_empty (PyStr.strip entry_goal) = false ->
  PyDate.fromisoformat (PyStr.strip entry_date) = Some d ->
  existsb (same_name (PyStr.strip entry_goal)) (goals a) = false ->
  len (goals a) < MAX_GOALS ->
  add_goal entry_goal entry_date a
  = (Added, added_state (PyStr.strip entry_goal) (PyStr.strip entry_date) a).
Proof.
  intros Hn Hd He Hl. unfold add_goal.
  rewrite Hn, (fromisoformat_not_empty _ _ Hd), Hd, He.
  destruct (Z.leb_spec MAX_GOALS (len (goals a))); [lia | reflexivity].
Qed.

Lemma no_same_name_not_member (goal_name goal_date_str : string) (l : list Goal) :
  existsb (same_name goal_name) l = false ->
  ~ In (mkGoal (Some goal_name) (Some goal_date_str)) l.
Proof.
  intros He Hin.
  apply (no_same_name_not_In _ _ He).
  apply in_map_iff. now exists (mkGoal (Some goal_name) (Some goal_date_str)).
Qed.

Lemma listSortedByDate_Permutation (a : App) :
  Permutation (listSortedByDate a) (goals a).
Proof. apply update_display_Permutation. Qed.

(** C1.  When the store holds fewer than [MAX_GOALS] records, the name is
    not empty once trimmed, the date string parses as an ISO date and no
    record carries the trimmed name up to case, [add_goal] goes through: it
    appends the record of the trimmed name and the date string (the list in
    memory and the list written to the data file hold the old records and
    the new one), and the listing that follows contains exactly one record
    with that name and date. *)
Theorem C1_add_then_list (a : App) (entry_goal dateStr : string) (d : PyDate.date) :
  len (goals a) < MAX_GOALS ->
  is_empty (PyStr.strip entry_goal) = false ->
  PyDate.fromisoformat dateStr = Some d ->
  existsb (same_name (PyStr.strip entry_goal)) (goals a) = false ->
  fst (add_goal entry_goal dateStr a) = Added
  /\ Permutation (goals (snd (add_goal entry_goal dateStr a)))
                 (goals a ++ [mkGoal (Some (PyStr.strip entry_goal)) (Some dateStr)])
  /\ data_file (snd (add_goal entry_goal dateStr a))
     = Some (Json (list_sort_total PyStr.lt save_key
                     (goals a ++ [mkGoal (Some (PyStr.strip entry_goal)) (Some dateStr)])))
  /\ occurrences (mkGoal (Some (PyStr.strip entry_goal)) (Some dateStr))
                 (listSortedByDate (snd (add_goal entry_goal dateStr a))) = 1%nat.
Proof.
  intros Hl Hn Hd He.
  pose proof (fromisoformat_strip _ _ Hd) as Hs.
  rewrite (add_goal_Added entry_goal dateStr d a Hn) by (rewrite ?Hs; assumption).
  rewrite Hs. cbn [fst snd].
  split; [reflexivity |].
  split; [apply added_state_Permutation |].
  split.
  - unfold added_state. cbn [data_file update_status].
    destruct (update_display_files
                (save_goals
                   (set_goals
                      (goals a ++ [mkGoal (Some (PyStr.strip entry_goal)) (Some dateStr)]) a)))
      as [-> _].
    reflexivity.
  - unfold occurrences.
    rewrite (proj1 (Permutation_count_occ Goal_eq_dec _ _)
               (Permutation_trans (listSortedByDate_Permutation _)
                                  (added_state_Permutation _ _ a))).
    rewrite count_occ_app.
    rewrite (proj1 (count_occ_not_In Goal_eq_dec _ _)
               (no_same_name_not_member _ dateStr _ He)).
    cbn [count_occ Nat.add].
    match goal with
    | |- context [Goal_eq_dec ?x ?y] =>
        destruct (Goal_eq_dec x y) as [_|N]; [reflexivity | now elim N]
    end.
Qed.

Lemma C1_add_then_list_witness :
  fst (add_goal " Quit Sugar " "2021-05-05" (app_with [goal "coffee" "2022-01-01"])) = Added
  /\ listSortedByDate
       (snd (add_goal " Quit Sugar " "2021-05-05" (app_with [goal "coffee" "2022-01-01"])))
     = [goal "Quit Sugar" "2021-05-05"; goal "coffee" "2022-01-01"]
  /\ occurrences (goal "Quit Sugar" "2021-05-05")
       (listSortedByDate
          (snd (add_goal " Quit Sugar " "2021-05-05" (app_with [goal "coffee" "2022-01-01"]))))
     = 1%nat.
Proof.
  split; [reflexivity |].
  split; [reflexivity |].
  apply (C1_add_then_list (app_with [goal "coffee" "2022-01-01"])
           " Quit Sugar " "2021-05-05" (PyDate.mkdate 2021 5 5));
    reflexivity.
Defined.

(** C2.  When the store already holds [MAX_GOALS] records, adding one more
    goal, of a valid name that no record carries and a well-formed date, is
    refused with the capacity message, and the store is as it was: the same
    list in memory, the same data file; only the status label changes. *)
Theorem C2_capacity_exceeded (a : App) (entry_goal dateStr : string) (d : PyDate.date) :
  MAX_GOALS <= len (goals a) ->
  is_empty (PyStr.strip entry_goal) = false ->
  PyDate.fromisoformat dateStr = Some d ->
  existsb (same_name (PyStr.strip entry_goal)) (goals a) = false ->
  add_goal entry_goal dateStr a
  = (CapacityExceeded, update_status "Cannot add more than 10 goals." "orange" a)
  /\ goals (snd (add_goal entry_goal dateStr a)) = goals a
  /\ data_file (snd (add_goal entry_goal dateStr a)) = data_file a.
Proof.
  intros Hl Hn Hd He.
  pose proof (fromisoformat_strip _ _ Hd) as Hs.
  assert (E : add_goal entry_goal dateStr a
              = (CapacityExceeded,
                 update_status "Cannot add more than 10 goals." "orange" a)).
  { unfold add_goal.
    rewrite Hn, Hs, (fromisoformat_not_empty _ _ Hd), Hd, He.
    destruct (Z.leb_spec MAX_GOALS (len (goals a))); [reflexivity | lia]. }
  rewrite E. auto.
Qed.

Lemma C2_capacity_exceeded_witness :
  len (goals (app_with ten_goals)) = MAX_GOALS
  /\ add_goal "knuckle cracking" "2024-02-02" (app_with ten_goals)
     = (CapacityExceeded,
        update_status "Cannot add more than 10 goals." "orange" (app_with ten_goals))
  /\ goals (snd (add_goal "knuckle cracking" "2024-02-02" (app_with ten_goals)))
     = ten_goals.
Proof.
  split; [reflexivity |].
  destruct (C2_capacity_exceeded (app_with ten_goals) "knuckle cracking" "2024-02-02"
              (PyDate.mkdate 2024 2 2)) as (E & G & _);
    [ discriminate | reflexivity | reflexivity | reflexivity | ].
  split; [exact E | exact G].
Defined.







(** ** Listing, persistence and order *)

Lemma sort_by_date_None (l : list Goal) :
  list_sort PyDate.lt display_date_key l = None
  <-> Exists (fun g => display_date_key g = None) l.
Proof.
  rewrite list_sort_None, Exists_exists. reflexivity.
Qed.

Lemma Forall_Exists_parse (l : list Goal) :
  Forall (fun g => display_date_key g <> None) l ->
  Exists (fun g => display_date_key g = None) l -> False.
Proof.
  rewrite Forall_forall, Exists_exists.
  intros Hall (g & Hin & Hnone). exact (Hall g Hin Hnone).
Qed.

(** C7.  When the date of every record parses, the listing holds all the
    records in ascending order of the parsed dates, and no warning is
    raised; when the date of some record does not parse, the listing is the
    whole list sorted by the date strings, and the status label carries the
    sorting warning.  A record without a date counts as dated 9999-12-31,
    the default the display reads. *)
Theorem C7_listSortedByDate (a : App) :
  (Forall (fun g => display_date_key g <> None) (goals a) ->
   Permutation (listSortedByDate a) (goals a)
   /\ ascending_by_date (listSortedByDate a)
   /\ status_text (update_display a) = status_text a
   /\ status_color (update_display a) = status_color a)
  /\ (Exists (fun g => display_date_key g = None) (goals a) ->
      listSortedByDate a = list_sort_total PyStr.lt display_key (goals a)
      /\ Permutation (listSortedByDate a) (goals a)
      /\ ascending_by display_key (listSortedByDate a)
      /\ status_text (update_display a) = SORT_WARNING
      /\ status_color (update_display a) = "orange").
Proof.
  unfold listSortedByDate.
  destruct (update_display_cases a) as [(sorted & Hs & E) | (Hs & E)]; rewrite E.
  - split.
    + intros _. destruct (sort_by_date_Some _ _ Hs) as [Hp Ha].
      cbn [goals status_text status_color set_goals]. auto.
    + intros Hex. apply sort_by_date_None in Hex. congruence.
  - split.
    + intros Hall. apply sort_by_date_None in Hs.
      destruct (Forall_Exists_parse _ Hall Hs).
    + intros _. cbn [goals status_text status_color set_goals update_status].
      repeat split.
      * apply sort_by_string_Permutation.
      * apply sort_by_string_ascending.
Qed.

Lemma C7_listSortedByDate_witness :
  listSortedByDate
    (app_with [goal "c" "2021-01-01"; goal "b" "2020-12-31"; mkGoal (Some "a") None])
  = [goal "b" "2020-12-31"; goal "c" "2021-01-01"; mkGoal (Some "a") None]
  /\ listSortedByDate (app_with [goal "c" "2021-01-01"; goal "b" "soon"; goal "a" "2020-12-31"])
     = [goal "a" "2020-12-31"; goal "c" "2021-01-01"; goal "b" "soon"]
  /\ status_text
       (update_display
          (app_with [goal "c" "2021-01-01"; goal "b" "soon"; goal "a" "2020-12-31"]))
     = SORT_WARNING.
Proof.
  split; [reflexivity |].
  split; [reflexivity |].
  destruct (C7_listSortedByDate
              (app_with [goal "c" "2021-01-01"; goal "b" "soon"; goal "a" "2020-12-31"]))
    as [_ Hbad].
  apply Hbad.
  apply Exists_cons_tl, Exists_cons_hd. reflexivity.
Defined.

(** C8.  Saving a list of goal records and loading the file just written
    gives back the records that were saved, as a set (indeed record for
    record, with multiplicity), in ascending order of their date strings:
    the loaded list is the list that was written. *)
Theorem C8_save_load_round_trip (a b : App) :
  data_file b = data_file (save_goals a) ->
  Permutation (goals (load_goals b)) (goals a)
  /\ (forall g, In g (goals (load_goals b)) <-> In g (goals a))
  /\ ascending_by save_key (goals (load_goals b))
  /\ date_strings_ascending (goals (load_goals b))
  /\ data_file (save_goals a) = Some (Json (goals (load_goals b))).
Proof.
  intros Hfile.
  assert (E : goals (load_goals b) = goals (save_goals a)).
  { unfold load_goals. rewrite Hfile, save_goals_data_file. reflexivity. }
  rewrite E.
  pose proof (save_goals_Permutation a) as Hp.
  repeat split.
  - exact Hp.
  - apply Permutation_in. exact Hp.
  - apply Permutation_in. apply Permutation_sym. exact Hp.
  - apply save_goals_ascending.
  - apply ascending_by_save_key_dates, save_goals_ascending.
Qed.

Lemma C8_save_load_round_trip_witness :
  goals (load_goals
           (app_at_startup_with_data
              (data_file (save_goals
                            (app_with [goal "c" "2021-01-01"; goal "b" "2020-12-31"])))))
  = [goal "b" "2020-12-31"; goal "c" "2021-01-01"]
  /\ Permutation
       (goals (load_goals
                 (app_at_startup_with_data
                    (data_file (save_goals
                                  (app_with [goal "c" "2021-01-01"; goal "b" "2020-12-31"]))))))
       [goal "c" "2021-01-01"; goal "b" "2020-12-31"].
Proof.
  split; [reflexivity |].
  apply (C8_save_load_round_trip
           (app_with [goal "c" "2021-01-01"; goal "b" "2020-12-31"])
           (app_at_startup_with_data
              (data_file (save_goals
                            (app_with [goal "c" "2021-01-01"; goal "b" "2020-12-31"]))))).
  reflexivity.
Defined.





(** ** Settings *)

Lemma stored_font_size_inv (a : App) (v : json) :
  stored_font_size a = Some v ->
  exists items, settings_file a = Some (Json (JObj items))
                /\ assoc "font_size" items = Some v.
Proof.
  unfold stored_font_size.
  destruct (settings_file a) as [[|[| | | | |items]]|]; try discriminate.
  intros H. now exists items.
Qed.

Lemma load_settings_stored (a : App) (v : json) :
  stored_font_size a = Some v ->
  load_settings a
  = match as_number v with
    | inr n =>
        if between MIN_FONT_SIZE MAX_FONT_SIZE n
        then set_font_size n a
        else save_settings (set_font_size (Int DEFAULT_FONT_SIZE) a)
    | inl _ => save_settings (set_font_size (Int DEFAULT_FONT_SIZE) a)
    end.
Proof.
  intros H. apply stored_font_size_inv in H. destruct H as (items & Hf & Hv).
  unfold load_settings, load_settings_try. rewrite Hf. cbn [dict_get]. rewrite Hv.
  destruct v as [|b|n|s|l|kv]; cbn [as_number]; try reflexivity.
  - destruct (between MIN_FONT_SIZE MAX_FONT_SIZE (Int (if b then 1 else 0)));
      reflexivity.
  - destruct (between MIN_FONT_SIZE MAX_FONT_SIZE n); reflexivity.
Qed.

Lemma load_settings_font_in_range (a : App) :
  between MIN_FONT_SIZE MAX_FONT_SIZE (current_font_size (load_settings a)) = true.
Proof.
  unfold load_settings, load_settings_try.
  destruct (settings_file a) as [[|j]|]; try reflexivity.
  destruct (dict_get j "font_size" (JNum (Int DEFAULT_FONT_SIZE))) as [[]|v];
    try reflexivity.
  destruct (as_number v) as [[]|n]; try reflexivity.
  destruct (between MIN_FONT_SIZE MAX_FONT_SIZE n) eqn:E; [exact E | reflexivity].
Qed.

(** C6, as the claim states it, fails twice: a stored size within the
    bounds is taken as it is, also when it is not one of the steps of 2;
    and a settings file without a [font_size] entry gives the default
    without being rewritten. *)
Lemma C6_counterexample :
  (current_font_size (load_settings (app_at_startup (font_size_file 13))) = Int 13
   /\ ~ In 13 (range MIN_FONT_SIZE (MAX_FONT_SIZE + 1) FONT_SIZE_INCREMENT)
   /\ ~ In (PyStr.str 13) AVAILABLE_FONT_SIZES)
  /\ (font_size_key_missing (app_at_startup (Some (Json (JObj []))))
      /\ current_font_size (load_settings (app_at_startup (Some (Json (JObj [])))))
         = Int 16
      /\ settings_file (load_settings (app_at_startup (Some (Json (JObj [])))))
         = Some (Json (JObj []))
      /\ settings_file (load_settings (app_at_startup (Some (Json (JObj [])))))
         <> font_size_file 16).
Proof.
  split; [split; [| split] |].
  - reflexivity.
  - cbv. intuition discriminate.
  - cbv. intuition discriminate.
  - split; [exists []; split; reflexivity |].
    split; [reflexivity |].
    split; [reflexivity | discriminate].
Qed.

(** C6, amended.  Whatever the settings file holds, the font size in effect
    after loading is a number within [12, 24], the default being 16.  A
    stored [font_size] within the bounds is kept as it is and the file is
    not touched.  A stored [font_size] that is not a number within the
    bounds (5, say), a missing file and a file that is not JSON give 16,
    and 16 is written back to the file.  A file whose object has no
    [font_size] entry, or that holds something other than an object, gives
    16 and is left as it is. *)
Theorem C6_load_settings (a : App) :
  between MIN_FONT_SIZE MAX_FONT_SIZE (current_font_size (load_settings a)) = true
  /\ (forall v n,
         stored_font_size a = Some v -> as_number v = inr n ->
         between MIN_FONT_SIZE MAX_FONT_SIZE n = true ->
         current_font_size (load_settings a) = n
         /\ settings_file (load_settings a) = settings_file a)
  /\ (forall v,
         stored_font_size a = Some v -> in_font_range v = false ->
         current_font_size (load_settings a) = Int DEFAULT_FONT_SIZE
         /\ settings_file (load_settings a) = font_size_file DEFAULT_FONT_SIZE)
  /\ (settings_file a = None \/ settings_file a = Some Malformed ->
      current_font_size (load_settings a) = Int DEFAULT_FONT_SIZE
      /\ settings_file (load_settings a) = font_size_file DEFAULT_FONT_SIZE)
  /\ (font_size_key_missing a ->
      current_font_size (load_settings a) = Int DEFAULT_FONT_SIZE
      /\ settings_file (load_settings a) = settings_file a)
  /\ (forall j,
         settings_file a = Some (Json j) -> (forall items, j <> JObj items) ->
         current_font_size (load_settings a) = Int DEFAULT_FONT_SIZE
         /\ settings_file (load_settings a) = settings_file a).
Proof.
  split; [apply load_settings_font_in_range |].
  split; [| split; [| split; [| split]]].
  - intros v n Hv Hn Hb. rewrite (load_settings_stored a v Hv), Hn, Hb. auto.
  - intros v Hv Hr. rewrite (load_settings_stored a v Hv).
    unfold in_font_range in Hr.
    destruct (as_number v) as [e|n]; [auto |].
    rewrite Hr. auto.
  - unfold load_settings, load_settings_try.
    intros [-> | ->]; auto.
  - intros (items & Hf & Hk).
    unfold load_settings, load_settings_try.
    rewrite Hf. cbn [dict_get]. rewrite Hk. cbn. rewrite Hf. auto.
  - intros j Hf Hj.
    unfold load_settings, load_settings_try. rewrite Hf.
    destruct j as [|b|n|s|l|kv]; cbn; rewrite ?Hf; auto.
    now elim (Hj kv).
Qed.

Lemma C6_load_settings_witness :
  stored_font_size (app_at_startup (font_size_file 5)) = Some (JNum (Int 5))
  /\ in_font_range (JNum (Int 5)) = false
  /\ current_font_size (load_settings (app_at_startup (font_size_file 5))) = Int 16
  /\ settings_file (load_settings (app_at_startup (font_size_file 5))) = font_size_file 16.
Proof.
  split; [reflexivity |].
  split; [reflexivity |].
  destruct (C6_load_settings (app_at_startup (font_size_file 5))) as (_ & _ & Hout & _).
  apply (Hout (JNum (Int 5))); reflexivity.
Defined.

(** * Further properties *)

(** ** Sorting a list that is already in order *)

Section SortedInput.
Context {K A : Type}.
Variable ltb : K -> K -> bool.

Lemma insert_keyed_first (x : K * A) (l : list (K * A)) :
  Forall (fun y => not_above ltb (fst x) (fst y)) l ->
  insert_keyed ltb x l = x :: l.
Proof.
  destruct l as [|y l]; simpl; [reflexivity |].
  intros H. inversion H as [|? ? Hy _]; subst.
  unfold not_above in Hy. now rewrite Hy.
Qed.

Lemma sort_keyed_ascending_id (l : list (K * A)) :
  keys_ascending ltb l -> sort_keyed ltb l = l.
Proof.
  unfold keys_ascending.
  induction 1 as [|x l Hs IH Hx]; simpl; [reflexivity |].
  rewrite IH. now apply insert_keyed_first.
Qed.

(** A new last element lands somewhere in an ordered list, the rest
    keeping its place. *)
Lemma sort_keyed_append (l : list (K * A)) (x : K * A) :
  keys_ascending ltb l ->
  exists l1 l2, sort_keyed ltb (l ++ [x]) = (l1 ++ x :: l2)%list
                /\ (l1 ++ l2)%list = l.
Proof.
  unfold keys_ascending.
  induction 1 as [|y l Hs IH Hy]; simpl.
  - exists [], []. split; reflexivity.
  - destruct IH as (l1 & l2 & E & El). rewrite E.
    assert (Hy2 : Forall (fun z => not_above ltb (fst y) (fst z)) l2).
    { rewrite <- El in Hy. apply Forall_app in Hy. tauto. }
    destruct l1 as [|z l1]; simpl.
    + destruct (ltb (fst x) (fst y)) eqn:Exy.
      * exists [], (y :: l2). split.
        -- simpl. now rewrite insert_keyed_first.
        -- simpl in *. now rewrite El.
      * exists [y], l2. split; [reflexivity |]. simpl in *. now rewrite El.
    + assert (Hz : not_above ltb (fst y) (fst z)).
      { rewrite <- El in Hy. simpl in Hy. now inversion Hy. }
      unfold not_above in Hz. rewrite Hz.
      exists (y :: z :: l1), l2. split; [reflexivity |].
      simpl in *. now rewrite El.
Qed.

Lemma decorate_map_snd (key : A -> option K) (l : list A) (kl : list (K * A)) :
  decorate key l = Some kl -> map snd kl = l.
Proof. intros H. now destruct (decorate_Some key l kl H). Qed.

Lemma decorate_ascending (key : A -> option K) (l : list A) (kl : list (K * A)) :
  decorate key l = Some kl ->
  StronglySorted (key_le ltb key) l ->
  keys_ascending ltb kl.
Proof.
  unfold keys_ascending. intros D Hs.
  destruct (decorate_Some key l kl D) as [Hm Hf].
  subst l. clear D.
  induction kl as [|p kl IH]; [constructor |].
  simpl in Hs. inversion Hs as [|? ? Hs' Hp]; subst.
  inversion Hf as [|? ? Kp Kf]; subst.
  constructor; [now apply IH |].
  rewrite Forall_forall in *. intros q Hq.
  specialize (Hp (snd q) (in_map snd _ _ Hq)).
  unfold key_le in Hp. now rewrite Kp, (Kf q Hq) in Hp.
Qed.

Lemma list_sort_ascending_id (key : A -> option K) (l : list A) :
  Forall (fun x => key x <> None) l ->
  StronglySorted (key_le ltb key) l -> list_sort ltb key l = Some l.
Proof.
  intros Hall Hs. unfold list_sort.
  destruct (decorate key l) as [kl|] eqn:D.
  - rewrite (sort_keyed_ascending_id kl (decorate_ascending key l kl D Hs)).
    now rewrite (decorate_map_snd key l kl D).
  - apply decorate_None in D. destruct D as (x & Hin & Hx).
    rewrite Forall_forall in Hall. now elim (Hall x Hin).
Qed.

Lemma list_sort_total_ascending_id (key : A -> K) (l : list A) :
  StronglySorted (fun x y => not_above ltb (key x) (key y)) l ->
  list_sort_total ltb key l = l.
Proof.
  intros Hs.
  assert (E : list_sort ltb (fun x => Some (key x)) l = Some l).
  { apply list_sort_ascending_id; [| exact Hs].
    apply Forall_forall. intros; discriminate. }
  rewrite list_sort_total_eq in E. injection E as E. exact E.
Qed.

(** Sorting [l ++ [x]], for [l] in order, and taking [x] out again. *)
Lemma list_sort_total_append (key : A -> K) (l : list A) (x : A) :
  StronglySorted (fun y z => not_above ltb (key y) (key z)) l ->
  exists l1 l2, list_sort_total ltb key (l ++ [x]) = (l1 ++ x :: l2)%list
                /\ (l1 ++ l2)%list = l.
Proof.
  intros Hs. unfold list_sort_total.
  rewrite map_app. simpl.
  destruct (sort_keyed_append (map (fun y => (key y, y)) l) (key x, x))
    as (k1 & k2 & E & El).
  { unfold keys_ascending.
    induction Hs as [|y l Hs IH Hy]; simpl; constructor; [exact IH |].
    rewrite Forall_forall in *. intros p Hp.
    apply in_map_iff in Hp. destruct Hp as (z & <- & Hz). now apply Hy. }
  rewrite E. exists (map snd k1), (map snd k2). split.
  - now rewrite map_app.
  - rewrite <- map_app, El, map_map. simpl. apply map_id.
Qed.
End SortedInput.

(** ** Trimming twice *)

Lemma lstrip_no_leading_space (s : string) :
  match PyStr.lstrip s with
  | String c _ => PyStr.isspace c = false
  | EmptyString => True
  end.
Proof.
  induction s as [|c s IH]; simpl; [exact I |].
  destruct (PyStr.isspace c) eqn:E; [exact IH | exact E].
Qed.

Lemma rstrip_keeps_head (c : ascii) (s : string) :
  PyStr.isspace c = false ->
  exists r, PyStr.rstrip (String c s) = String c r.
Proof.
  intros E. simpl. rewrite E.
  destruct (PyStr.rstrip s); eauto.
Qed.

Lemma rstrip_idempotent (s : string) :
  PyStr.rstrip (PyStr.rstrip s) = PyStr.rstrip s.
Proof.
  induction s as [|c s IH]; [reflexivity |].
  simpl. destruct (PyStr.rstrip s) as [|d r] eqn:E.
  - destruct (PyStr.isspace c) eqn:Ec; simpl; [reflexivity | now rewrite Ec].
  - change (PyStr.rstrip (String c (String d r)))
      with (match PyStr.rstrip (String d r) with
            | EmptyString =>
                if PyStr.isspace c then EmptyString else String c EmptyString
            | String _ _ as t => String c t
            end).
    now rewrite IH.
Qed.

Lemma strip_idempotent (s : string) :
  PyStr.strip (PyStr.strip s) = PyStr.strip s.
Proof.
  unfold PyStr.strip.
  pose proof (lstrip_no_leading_space s) as H.
  destruct (PyStr.lstrip s) as [|c t]; [reflexivity |].
  destruct (rstrip_keeps_head c t H) as (r & E).
  rewrite E. simpl PyStr.lstrip. rewrite H.
  rewrite <- E. apply rstrip_idempotent.
Qed.

(** ** Sorting the goal list when it is in order *)

Lemma sort_by_string_id (key : Goal -> string) (l : list Goal) :
  ascending_by key l -> list_sort_total PyStr.lt key l = l.
Proof.
  intros H. apply list_sort_total_ascending_id.
  eapply StronglySorted_weaken; [| exact H].
  intros x y _ _. apply string_le_not_above.
Qed.

Lemma all_parse_ascending_by_date (l : list Goal) :
  Forall (fun g => display_date_key g <> None) l ->
  ascending_by display_key l -> ascending_by_date l.
Proof.
  unfold ascending_by, ascending_by_date. intros Hall.
  apply StronglySorted_weaken.
  rewrite Forall_forall in Hall.
  intros x y Hx Hy. specialize (Hall x Hx) as Px. specialize (Hall y Hy) as Py.
  unfold display_date_key in *.
  destruct (PyDate.fromisoformat (display_key x)) as [dx|] eqn:Ex; [| congruence].
  destruct (PyDate.fromisoformat (display_key y)) as [dy|] eqn:Ey; [| congruence].
  unfold PyDate.le, PyStr.le.
  now rewrite (fromisoformat_lt _ _ _ _ Ey Ex).
Qed.

Lemma sort_by_date_id (l : list Goal) :
  Forall (fun g => display_date_key g <> None) l ->
  ascending_by_date l -> list_sort PyDate.lt display_date_key l = Some l.
Proof.
  intros Hall H. apply list_sort_ascending_id; [exact Hall |].
  unfold ascending_by_date in H.
  eapply StronglySorted_weaken; [| exact H].
  intros x y _ _. unfold key_le.
  destruct (display_date_key x), (display_date_key y); try tauto.
  apply date_le_not_above.
Qed.

Lemma sort_by_date_all_parse (l sorted : list Goal) :
  list_sort PyDate.lt display_date_key l = Some sorted ->
  Forall (fun g => display_date_key g <> None) sorted.
Proof.
  intros H. apply Forall_forall. intros g Hg Hn.
  assert (Hnone : list_sort PyDate.lt display_date_key l = None).
  { apply list_sort_None. exists g. split; [| exact Hn].
    destruct (sort_by_date_Some l sorted H) as [Hp _].
    now apply (Permutation_in _ Hp). }
  congruence.
Qed.

(** Drawing the display a second time changes nothing. *)
Lemma update_display_idempotent (a : App) :
  update_display (update_display a) = update_display a.
Proof.
  destruct (update_display_cases a) as [(sorted & Hs & E) | (Hs & E)]; rewrite E.
  - destruct (sort_by_date_Some _ _ Hs) as [Hp Ha].
    pose proof (sort_by_date_all_parse _ _ Hs) as Hall.
    unfold update_display. cbn [goals set_goals].
    rewrite (sort_by_date_id sorted Hall Ha).
    destruct sorted; reflexivity.
  - set (sorted := list_sort_total PyStr.lt display_key (goals a)).
    assert (Hn : list_sort PyDate.lt display_date_key sorted = None).
    { apply list_sort_None. apply list_sort_None in Hs.
      destruct Hs as (g & Hin & Hg). exists g. split; [| exact Hg].
      apply (Permutation_in _ (Permutation_sym (sort_by_string_Permutation _ _))).
      exact Hin. }
    unfold update_display. cbn [goals set_goals update_status].
    rewrite Hn.
    rewrite (sort_by_string_id display_key sorted (sort_by_string_ascending _ _)).
    destruct sorted eqn:Es; [| reflexivity].
    apply list_sort_None in Hn. destruct Hn as (g & [] & _).
Qed.

Lemma save_goals_idempotent (a : App) :
  save_goals (save_goals a) = save_goals a.
Proof.
  unfold save_goals. cbn [goals set_goals write_data_file].
  now rewrite (sort_by_string_id save_key _ (sort_by_string_ascending _ _)).
Qed.

(** ** Settings, loaded again *)

Lemma set_font_size_twice (n m : number) (a : App) :
  set_font_size n (set_font_size m a) = set_font_size n a.
Proof. reflexivity. Qed.

Lemma load_settings_saved (n : Z) (a : App) :
  between MIN_FONT_SIZE MAX_FONT_SIZE (Int n) = true ->
  settings_file a = font_size_file n ->
  load_settings a = set_font_size (Int n) a.
Proof.
  intros Hb Hf. unfold load_settings, load_settings_try, font_size_file in *.
  rewrite Hf. simpl.
  cbn [between] in Hb. unfold MIN_FONT_SIZE, MAX_FONT_SIZE in *.
  now rewrite Hb.
Qed.

Lemma load_settings_idempotent (a : App) :
  load_settings (load_settings a) = load_settings a.
Proof.
  assert (Hdef : load_settings (save_settings (set_font_size (Int DEFAULT_FONT_SIZE) a))
                 = save_settings (set_font_size (Int DEFAULT_FONT_SIZE) a)).
  { rewrite (load_settings_saved DEFAULT_FONT_SIZE); reflexivity. }
  unfold load_settings at 2 3. unfold load_settings_try.
  destruct (settings_file a) as [[|j]|] eqn:Ef; try exact Hdef.
  destruct (dict_get j "font_size" (JNum (Int DEFAULT_FONT_SIZE))) as [[]|v] eqn:Eg;
    try exact Hdef.
  - unfold load_settings, load_settings_try. cbn [settings_file set_font_size].
    rewrite Ef, Eg. reflexivity.
  - destruct (as_number v) as [[]|n] eqn:En; try exact Hdef.
    + unfold load_settings, load_settings_try. cbn [settings_file set_font_size].
      rewrite Ef, Eg, En. reflexivity.
    + destruct (between MIN_FONT_SIZE MAX_FONT_SIZE n) eqn:Eb; [| exact Hdef].
      unfold load_settings, load_settings_try. cbn [settings_file set_font_size].
      rewrite Ef, Eg, En, Eb. reflexivity.
Qed.

Lemma load_settings_font_of_file (a b : App) :
  settings_file a = settings_file b ->
  current_font_size (load_settings a) = current_font_size (load_settings b).
Proof.
  intros E. unfold load_settings, load_settings_try. rewrite E.
  destruct (settings_file b) as [[|j]|]; try reflexivity.
  destruct (dict_get j "font_size" (JNum (Int DEFAULT_FONT_SIZE))) as [[]|v];
    try reflexivity.
  destruct (as_number v) as [[]|n]; try reflexivity.
  destruct (between MIN_FONT_SIZE MAX_FONT_SIZE n); reflexivity.
Qed.

(** ** States the program builds *)

Lemma well_formed_keys (g : Goal) :
  well_formed g ->
  display_date_key g <> None /\ save_key g = display_key g.
Proof.
  intros (n & d & -> & _ & _ & Hd). split; [exact Hd | reflexivity].
Qed.

Lemma well_formed_all_parse (l : list Goal) :
  Forall well_formed l -> Forall (fun g => display_date_key g <> None) l.
Proof.
  apply Forall_impl. intros g H. now apply well_formed_keys.
Qed.

Lemma well_formed_ascending_save (l : list Goal) :
  Forall well_formed l -> ascending_by display_key l -> ascending_by save_key l.
Proof.
  unfold ascending_by. intros Hall.
  apply StronglySorted_weaken. rewrite Forall_forall in Hall.
  intros x y Hx Hy.
  destruct (well_formed_keys x (Hall x Hx)) as [_ ->].
  destruct (well_formed_keys y (Hall y Hy)) as [_ ->]. auto.
Qed.

Lemma well_formed_ascending_display (l : list Goal) :
  Forall well_formed l -> ascending_by save_key l -> ascending_by display_key l.
Proof.
  unfold ascending_by. intros Hall.
  apply StronglySorted_weaken. rewrite Forall_forall in Hall.
  intros x y Hx Hy.
  destruct (well_formed_keys x (Hall x Hx)) as [_ ->].
  destruct (well_formed_keys y (Hall y Hy)) as [_ ->]. auto.
Qed.

(** A list of well-formed records in order is drawn as it is, without a
    warning. *)
Lemma update_display_in_order (a : App) :
  Forall well_formed (goals a) -> ascending_by display_key (goals a) ->
  update_display a = a.
Proof.
  intros Hw Hs. unfold update_display.
  destruct (goals a) as [|g l] eqn:E; [reflexivity |].
  rewrite (sort_by_date_id (g :: l)).
  - rewrite <- E. apply set_goals_same.
  - now apply well_formed_all_parse.
  - apply all_parse_ascending_by_date; [now apply well_formed_all_parse | exact Hs].
Qed.

(** Persisting and drawing a list of well-formed records in order. *)
Lemma persist_in_order (l : list Goal) (a : App) :
  Forall well_formed l -> ascending_by save_key l ->
  update_display (save_goals (set_goals l a)) = write_data_file l (set_goals l a).
Proof.
  intros Hw Hs.
  assert (E : save_goals (set_goals l a) = write_data_file l (set_goals l a)).
  { unfold save_goals. cbn [goals set_goals]. now rewrite (sort_by_string_id save_key l Hs). }
  rewrite E. apply update_display_in_order; cbn [goals set_goals write_data_file].
  - exact Hw.
  - now apply well_formed_ascending_display.
Qed.

Lemma Forall_without {A : Type} (P : A -> Prop) (l : list A) (i : nat) :
  Forall P l -> Forall P (firstn i l ++ skipn (S i) l).
Proof.
  intros H. revert i.
  induction H as [|x l Hx Hl IH]; intros [|i]; simpl; auto.
Qed.

Lemma StronglySorted_without {A : Type} (R : A -> A -> Prop) (l : list A) (i : nat) :
  StronglySorted R l -> StronglySorted R (firstn i l ++ skipn (S i) l).
Proof.
  intros Hs. revert i.
  induction Hs as [|x l Hs IH Hx]; intros [|i]; simpl; try constructor; auto.
  now apply Forall_without.
Qed.

Lemma len_app_one (l : list Goal) (g : Goal) : len (l ++ [g]) = len l + 1.
Proof. unfold len. rewrite length_app. simpl. lia. Qed.

Lemma len_Permutation (l l' : list Goal) : Permutation l l' -> len l = len l'.
Proof. intros H. unfold len. now rewrite (Permutation_length H). Qed.

(** The state after an add that goes through, in a consistent state. *)
Lemma added_state_in_order (goal_name goal_date_str : string) (a : App) :
  Forall well_formed (goals a) ->
  well_formed (mkGoal (Some goal_name) (Some goal_date_str)) ->
  added_state goal_name goal_date_str a
  = update_status ("Goal '" ++ goal_name ++ "' added successfully!") "green"
      (write_data_file
         (list_sort_total PyStr.lt save_key
            (goals a ++ [mkGoal (Some goal_name) (Some goal_date_str)]))
         (set_goals
            (list_sort_total PyStr.lt save_key
               (goals a ++ [mkGoal (Some goal_name) (Some goal_date_str)])) a)).
Proof.
  intros Hw Hn. unfold added_state. f_equal.
  set (new_goal := mkGoal (Some goal_name) (Some goal_date_str)) in *.
  set (sorted := list_sort_total PyStr.lt save_key (goals a ++ [new_goal])).
  assert (E : save_goals (set_goals (goals a ++ [new_goal]) a)
              = write_data_file sorted (set_goals sorted a)) by reflexivity.
  rewrite E.
  apply update_display_in_order; cbn [goals set_goals write_data_file].
  - apply (Permutation_Forall (Permutation_sym (sort_by_string_Permutation _ _))).
    apply Forall_app. split; [exact Hw | now constructor].
  - apply well_formed_ascending_display.
    + apply (Permutation_Forall (Permutation_sym (sort_by_string_Permutation _ _))).
      apply Forall_app. split; [exact Hw | now constructor].
    + apply sort_by_string_ascending.
Qed.

Lemma deleted_state_in_order (removed_goal : Goal) (rest : list Goal) (a : App) :
  Forall well_formed rest -> ascending_by display_key rest ->
  deleted_state removed_goal rest a
  = update_status ("Goal '" ++ get (name removed_goal) "Unknown" ++ "' deleted.") "#A9A9A9"
      (write_data_file rest (set_goals rest a)).
Proof.
  intros Hw Hs. unfold deleted_state. f_equal.
  apply persist_in_order; [exact Hw | now apply well_formed_ascending_save].
Qed.

Lemma add_goal_well_formed (entry_goal entry_date : string) (a : App) :
  fst (add_goal entry_goal entry_date a) = Added ->
  well_formed (mkGoal (Some (PyStr.strip entry_goal)) (Some (PyStr.strip entry_date))).
Proof.
  intros Hok.
  destruct (add_goal_cases entry_goal entry_date a)
    as [(_ & _ & Hn & Hd & _) | (Hf & _)]; [| contradiction].
  exists (PyStr.strip entry_goal), (PyStr.strip entry_date).
  repeat split; trivial. apply strip_idempotent.
Qed.

Lemma consistent_add_goal (entry_goal entry_date : string) (a : App) :
  consistent a -> consistent (snd (add_goal entry_goal entry_date a)).
Proof.
  intros (Hu & Hl & Hw & Hs & Hsync & Hb & Hr).
  destruct (add_goal_cases entry_goal entry_date a)
    as [(Hok & E & Hn & Hd & He & Hlt) | (_ & message & color & E)].
  - pose proof (add_goal_well_formed _ _ _ Hok) as Hnew.
    rewrite E, (added_state_in_order _ _ a Hw Hnew).
    set (new_goal := mkGoal (Some (PyStr.strip entry_goal)) (Some (PyStr.strip entry_date))) in *.
    set (sorted := list_sort_total PyStr.lt save_key (goals a ++ [new_goal])).
    pose proof (sort_by_string_Permutation save_key (goals a ++ [new_goal])) as Hp.
    fold sorted in Hp.
    assert (Hwf : Forall well_formed sorted).
    { apply (Permutation_Forall (Permutation_sym Hp)).
      apply Forall_app. split; [exact Hw | now constructor]. }
    unfold consistent. cbn [goals data_file current_font_size update_status
                            write_data_file set_goals].
    repeat split.
    + apply (unique_names_Permutation _ _ (Permutation_sym Hp)).
      now apply unique_names_append.
    + rewrite (len_Permutation _ _ Hp), len_app_one. lia.
    + exact Hwf.
    + apply well_formed_ascending_display; [exact Hwf |].
      apply sort_by_string_ascending.
    + left. reflexivity.
    + exact Hb.
    + rewrite <- Hr. now apply load_settings_font_of_file.
  - rewrite E. unfold consistent in *.
    cbn [goals data_file current_font_size update_status].
    repeat split; trivial.
    rewrite <- Hr. now apply load_settings_font_of_file.
Qed.

Lemma len_without (l : list Goal) (i : nat) : len (without i l) <= len l.
Proof.
  unfold len, without. rewrite length_app, length_firstn, length_skipn. lia.
Qed.

Lemma consistent_delete_goal (index : Z) (a : App) :
  consistent a -> consistent (snd (delete_goal index a)).
Proof.
  intros (Hu & Hl & Hw & Hs & Hsync & Hb & Hr).
  destruct (Z_le_dec 0 index) as [H0|H0];
    [destruct (Z_lt_dec index (len (goals a))) as [H1|H1] |].
  - destruct (delete_goal_in_range index a) as (x & rest & E & _ & Hrest & Hp); [lia |].
    assert (Hwr : Forall well_formed rest) by (rewrite Hrest; now apply Forall_without).
    assert (Hsr : ascending_by display_key rest)
      by (rewrite Hrest; now apply StronglySorted_without).
    rewrite E. cbn [snd]. rewrite (deleted_state_in_order x rest a Hwr Hsr).
    unfold consistent. cbn [goals data_file current_font_size update_status
                            write_data_file set_goals].
    repeat split; trivial.
    + apply (unique_names_Permutation _ _ (Permutation_sym Hp)) in Hu.
      unfold unique_names in *. simpl in Hu. now inversion Hu.
    + pose proof (len_without (goals a) (Z.to_nat index)) as Hle.
      unfold without in Hle. rewrite <- Hrest in Hle. lia.
    + left. reflexivity.
    + rewrite <- Hr. now apply load_settings_font_of_file.
  - rewrite delete_goal_out_of_range by lia.
    unfold consistent. cbn [snd goals data_file current_font_size update_status].
    repeat split; trivial. rewrite <- Hr. now apply load_settings_font_of_file.
  - rewrite delete_goal_out_of_range by lia.
    unfold consistent. cbn [snd goals data_file current_font_size update_status].
    repeat split; trivial. rewrite <- Hr. now apply load_settings_font_of_file.
Qed.

(** ** The font-size callback *)

Lemma font_size_changed_cases (selected_size_str : string) (a : App) :
  font_size_changed selected_size_str a = a
  \/ exists new_size,
      PyInt.int selected_size_str = Some new_size
      /\ MIN_FONT_SIZE <= new_size <= MAX_FONT_SIZE
      /\ differs new_size (current_font_size a) = true
      /\ font_size_changed selected_size_str a
         = save_settings (update_display (set_font_size (Int new_size) a)).
Proof.
  unfold font_size_changed, _apply_global_font_settings.
  destruct (PyInt.int selected_size_str) as [n|]; [| now left].
  destruct (Z.leb_spec MIN_FONT_SIZE n), (Z.leb_spec n MAX_FONT_SIZE);
    cbn [andb]; try now left.
  destruct (differs n (current_font_size a)) eqn:Ed; [| now left].
  right. exists n. repeat split; trivial.
Qed.

Lemma load_settings_keeps (a : App) :
  goals (load_settings a) = goals a
  /\ data_file (load_settings a) = data_file a
  /\ status_text (load_settings a) = status_text a
  /\ status_color (load_settings a) = status_color a.
Proof.
  unfold load_settings, load_settings_try.
  destruct (settings_file a) as [[|j]|]; auto.
  destruct (dict_get j "font_size" (JNum (Int DEFAULT_FONT_SIZE))) as [[]|v]; auto.
  destruct (as_number v) as [[]|n]; auto.
  destruct (between MIN_FONT_SIZE MAX_FONT_SIZE n); auto.
Qed.

Lemma consistent_font_size_changed (selected_size_str : string) (a : App) :
  consistent a -> consistent (font_size_changed selected_size_str a).
Proof.
  intros Hc.
  destruct (font_size_changed_cases selected_size_str a)
    as [-> | (n & _ & Hn & _ & ->)]; [exact Hc |].
  destruct Hc as (Hu & Hl & Hw & Hs & Hsync & Hb & Hr).
  rewrite (update_display_in_order (set_font_size (Int n) a)) by assumption.
  assert (Hbn : between MIN_FONT_SIZE MAX_FONT_SIZE (Int n) = true).
  { cbn [between]. apply andb_true_iff. split; apply Z.leb_le; lia. }
  unfold consistent.
  cbn [goals data_file current_font_size save_settings write_settings_file set_font_size].
  repeat split; trivial.
  rewrite (load_settings_saved n); [reflexivity | exact Hbn | reflexivity].
Qed.

(** ** The event loop *)

Lemma consistent_handle (e : Event) (a : App) :
  consistent a -> consistent (handle e a).
Proof.
  destruct e as [entry_goal entry_date | index | selected]; simpl.
  - apply consistent_add_goal.
  - apply consistent_delete_goal.
  - apply consistent_font_size_changed.
Qed.

Lemma consistent_mainloop (events : list Event) (a : App) :
  consistent a -> consistent (mainloop events a).
Proof.
  unfold mainloop. revert a.
  induction events as [|e events IH]; simpl; intros a Hc; [exact Hc |].
  apply IH. now apply consistent_handle.
Qed.

(** ** The constructor *)

Lemma init_unfold (data : option (list Goal)) (settings : option (FileText json)) :
  init data settings
  = update_display
      (set_goals (match data with Some l => l | None => [] end)
         (load_settings
            (mkApp [] (Int DEFAULT_FONT_SIZE) EmptyString "gray"
                   (option_map Json data) settings))).
Proof.
  unfold init, load_goals.
  destruct (load_settings_keeps
              (mkApp [] (Int DEFAULT_FONT_SIZE) EmptyString "gray"
                     (option_map Json data) settings)) as (_ & -> & _).
  destruct data; reflexivity.
Qed.

Lemma load_settings_settled (a : App) :
  current_font_size (load_settings (load_settings a))
  = current_font_size (load_settings a).
Proof. now rewrite load_settings_idempotent. Qed.

Lemma init_in_order (data : option (list Goal)) (settings : option (FileText json)) :
  let l := match data with Some l => l | None => [] end in
  Forall well_formed l -> ascending_by display_key l ->
  init data settings
  = set_goals l
      (load_settings
         (mkApp [] (Int DEFAULT_FONT_SIZE) EmptyString "gray"
                (option_map Json data) settings)).
Proof.
  intros l Hw Hs. rewrite init_unfold. fold l.
  now apply update_display_in_order.
Qed.

Lemma consistent_init (data : option (list Goal)) (settings : option (FileText json)) :
  let l := match data with Some l => l | None => [] end in
  unique_names l -> len l <= MAX_GOALS ->
  Forall well_formed l -> ascending_by display_key l ->
  consistent (init data settings).
Proof.
  intros l Hu Hl Hw Hs.
  rewrite (init_in_order data settings Hw Hs). fold l.
  set (a0 := mkApp [] (Int DEFAULT_FONT_SIZE) EmptyString "gray"
                   (option_map Json data) settings).
  destruct (load_settings_keeps a0) as (_ & Hd & _).
  unfold consistent. cbn [goals data_file current_font_size set_goals].
  repeat split; trivial.
  - unfold in_sync. cbn [goals data_file set_goals]. rewrite Hd.
    unfold a0, l. cbn [data_file].
    destruct data; [now left | now right].
  - apply load_settings_font_in_range.
  - rewrite <- (load_settings_settled a0).
    now apply load_settings_font_of_file.
Qed.

Lemma consistent_first_run (settings : option (FileText json)) :
  consistent (init None settings).
Proof.
  apply (consistent_init None settings); simpl.
  - constructor.
  - discriminate.
  - constructor.
  - constructor.
Qed.

(** ** What the store guarantees, beyond the single operation *)

Lemma without_middle (l1 l2 : list Goal) (x : Goal) :
  nth_error (l1 ++ x :: l2) (List.length l1) = Some x
  /\ without (List.length l1) (l1 ++ x :: l2) = (l1 ++ l2)%list.
Proof.
  unfold without.
  induction l1 as [|y l1 [IHn IHw]]; [split; reflexivity |].
  split; [exact IHn |].
  cbn [List.length app firstn skipn]. cbn [skipn] in IHw. now rewrite IHw.
Qed.

Lemma handle_len (e : Event) (a : App) :
  len (goals a) <= MAX_GOALS -> len (goals (handle e a)) <= MAX_GOALS.
Proof.
  intros Hl. destruct e as [entry_goal entry_date | index | selected]; simpl.
  - destruct (add_goal_cases entry_goal entry_date a)
      as [(_ & -> & _ & _ & _ & Hlt) | (_ & message & color & ->)]; [| exact Hl].
    rewrite (len_Permutation _ _ (added_state_Permutation _ _ a)), len_app_one. lia.
  - destruct (Z_le_dec 0 index) as [H0|H0];
      [destruct (Z_lt_dec index (len (goals a))) as [H1|H1] |].
    + destruct (delete_goal_in_range index a) as (x & rest & -> & _ & _ & Hp); [lia |].
      cbn [snd]. rewrite (len_Permutation _ _ (deleted_state_Permutation x rest a)).
      rewrite <- (len_Permutation _ _ Hp) in Hl. unfold len in *. simpl in Hl. lia.
    + now rewrite delete_goal_out_of_range by lia.
    + now rewrite delete_goal_out_of_range by lia.
  - destruct (font_size_changed_cases selected a) as [-> | (n & _ & _ & _ & ->)];
      [exact Hl |].
    cbn [goals save_settings write_settings_file].
    now rewrite (len_Permutation _ _ (update_display_Permutation _)).
Qed.

(** X1.  An add that is refused, for whatever reason (empty name, empty
    date, malformed date, duplicate name, full store), changes nothing but
    the status label: the goal list, the data file, the settings file and
    the font size are as they were. *)
Theorem X1_refused_add_changes_nothing (entry_goal entry_date : string) (a : App) :
  fst (add_goal entry_goal entry_date a) <> Added ->
  (exists message color,
      snd (add_goal entry_goal entry_date a) = update_status message color a)
  /\ goals (snd (add_goal entry_goal entry_date a)) = goals a
  /\ data_file (snd (add_goal entry_goal entry_date a)) = data_file a
  /\ settings_file (snd (add_goal entry_goal entry_date a)) = settings_file a
  /\ current_font_size (snd (add_goal entry_goal entry_date a)) = current_font_size a.
Proof.
  intros Hf.
  destruct (add_goal_cases entry_goal entry_date a)
    as [(Hok & _) | (_ & message & color & E)]; [contradiction |].
  rewrite E. split; [now exists message, color | auto].
Qed.

Lemma X1_refused_add_changes_nothing_witness :
  fst (add_goal "tea" "2021-02-30" (app_with [goal "coffee" "2020-01-01"])) = InvalidDate
  /\ goals (snd (add_goal "tea" "2021-02-30" (app_with [goal "coffee" "2020-01-01"])))
     = [goal "coffee" "2020-01-01"].
Proof.
  split; [reflexivity |].
  apply (X1_refused_add_changes_nothing "tea" "2021-02-30"
           (app_with [goal "coffee" "2020-01-01"])).
  discriminate.
Defined.

(** X2.  The store never grows past [MAX_GOALS]: if it holds at most
    [MAX_GOALS] records, it still does after any add, any delete and any
    change of font size, hence after any sequence of them. *)
Theorem X2_capacity_kept (events : list Event) (a : App) :
  len (goals a) <= MAX_GOALS ->
  len (goals (mainloop events a)) <= MAX_GOALS.
Proof.
  unfold mainloop. revert a.
  induction events as [|e events IH]; simpl; intros a Hl; [exact Hl |].
  apply IH. now apply handle_len.
Qed.

Lemma X2_capacity_kept_witness :
  len (goals (mainloop [ClickAdd "knuckle cracking" "2024-02-02"; ClickDelete 0;
                        ClickAdd "late nights" "2024-03-03";
                        ClickAdd "more late nights" "2024-03-04"]
                       (app_with ten_goals))) <= MAX_GOALS.
Proof.
  apply (X2_capacity_kept _ (app_with ten_goals)). discriminate.
Defined.

(** X3.  After an add or a delete that goes through, the data file holds
    exactly the records that are in memory (the same records, each as many
    times), written in ascending order of their date strings. *)
Theorem X3_file_mirrors_memory (a : App) :
  (forall entry_goal entry_date,
      fst (add_goal entry_goal entry_date a) = Added ->
      exists written,
        data_file (snd (add_goal entry_goal entry_date a)) = Some (Json written)
        /\ Permutation written (goals (snd (add_goal entry_goal entry_date a)))
        /\ ascending_by save_key written)
  /\ (forall index removed_goal,
         fst (delete_goal index a) = Deleted removed_goal ->
         exists written,
           data_file (snd (delete_goal index a)) = Some (Json written)
           /\ Permutation written (goals (snd (delete_goal index a)))
           /\ ascending_by save_key written).
Proof.
  assert (Hpersist : forall l message color,
             exists written,
               data_file (update_status message color
                            (update_display (save_goals (set_goals l a))))
               = Some (Json written)
               /\ Permutation written
                    (goals (update_status message color
                              (update_display (save_goals (set_goals l a)))))
               /\ ascending_by save_key written).
  { intros l message color.
    exists (goals (save_goals (set_goals l a))).
    cbn [data_file goals update_status].
    destruct (update_display_files (save_goals (set_goals l a))) as [-> _].
    split; [reflexivity |].
    split; [apply Permutation_sym, update_display_Permutation |].
    apply save_goals_ascending. }
  split.
  - intros entry_goal entry_date Hok.
    destruct (add_goal_cases entry_goal entry_date a)
      as [(_ & -> & _) | (Hf & _)]; [| contradiction].
    apply Hpersist.
  - intros index removed_goal Hok.
    destruct (Z_le_dec 0 index) as [H0|H0];
      [destruct (Z_lt_dec index (len (goals a))) as [H1|H1] |].
    + destruct (delete_goal_in_range index a) as (x & rest & -> & _); [lia |].
      apply Hpersist.
    + rewrite delete_goal_out_of_range in Hok by lia. discriminate.
    + rewrite delete_goal_out_of_range in Hok by lia. discriminate.
Qed.

Lemma X3_file_mirrors_memory_witness :
  data_file (snd (add_goal "tea" "2019-06-01"
                    (app_with [goal "coffee" "2020-01-01"; mkGoal (Some "x") None])))
  = Some (Json [mkGoal (Some "x") None; goal "tea" "2019-06-01";
                goal "coffee" "2020-01-01"])
  /\ exists written,
      data_file (snd (add_goal "tea" "2019-06-01"
                        (app_with [goal "coffee" "2020-01-01"; mkGoal (Some "x") None])))
      = Some (Json written)
      /\ Permutation written
           (goals (snd (add_goal "tea" "2019-06-01"
                          (app_with [goal "coffee" "2020-01-01"; mkGoal (Some "x") None]))))
      /\ ascending_by save_key written.
Proof.
  split; [reflexivity |].
  destruct (X3_file_mirrors_memory
              (app_with [goal "coffee" "2020-01-01"; mkGoal (Some "x") None]))
    as [Hadd _].
  apply (Hadd "tea" "2019-06-01"). reflexivity.
Defined.



(** X5.  In a consistent state a delete within range takes out exactly the
    record at the index and nothing moves: the list in memory and the list
    in the data file are the old list without that position. *)
Theorem X5_delete_keeps_order (a : App) (index : Z) :
  consistent a ->
  0 <= index < len (goals a) ->
  exists removed_goal,
    nth_error (goals a) (Z.to_nat index) = Some removed_goal
    /\ fst (delete_goal index a) = Deleted removed_goal
    /\ goals (snd (delete_goal index a)) = without (Z.to_nat index) (goals a)
    /\ data_file (snd (delete_goal index a))
       = Some (Json (without (Z.to_nat index) (goals a))).
Proof.
  intros (_ & _ & Hw & Hs & _) Hi.
  destruct (delete_goal_in_range index a Hi) as (x & rest & E & Hn & Hrest & _).
  exists x. rewrite E. cbn [fst snd].
  rewrite deleted_state_in_order.
  - unfold without. rewrite <- Hrest. auto.
  - rewrite Hrest. now apply Forall_without.
  - rewrite Hrest. now apply StronglySorted_without.
Qed.

Lemma X5_delete_keeps_order_witness :
  goals (snd (delete_goal 1
                (mainloop [ClickAdd "a" "2020-01-01"; ClickAdd "b" "2020-01-01";
                           ClickAdd "c" "2020-01-01"] (init None None))))
  = [goal "a" "2020-01-01"; goal "c" "2020-01-01"].
Proof.
  destruct (X5_delete_keeps_order
              (mainloop [ClickAdd "a" "2020-01-01"; ClickAdd "b" "2020-01-01";
                         ClickAdd "c" "2020-01-01"] (init None None)) 1)
    as (removed_goal & _ & _ & Hg & _).
  - apply consistent_mainloop, consistent_first_run.
  - split; [discriminate | reflexivity].
  - rewrite Hg. reflexivity.
Defined.

(** X6.  In a consistent state drawing the display changes nothing: the
    list is shown in the order it is held, and the sorting warning is not
    raised.  (The warning can only come from a data file that the program
    did not write.) *)
Theorem X6_redraw_changes_nothing (a : App) :
  consistent a ->
  update_display a = a /\ listSortedByDate a = goals a.
Proof.
  intros (_ & _ & Hw & Hs & _).
  unfold listSortedByDate.
  rewrite (update_display_in_order a Hw Hs). auto.
Qed.

Lemma X6_redraw_changes_nothing_witness :
  update_display (mainloop [ClickAdd "b" "2021-01-01"; ClickAdd "a" "2020-01-01"]
                           (init None None))
  = mainloop [ClickAdd "b" "2021-01-01"; ClickAdd "a" "2020-01-01"] (init None None).
Proof.
  apply (X6_redraw_changes_nothing
           (mainloop [ClickAdd "b" "2021-01-01"; ClickAdd "a" "2020-01-01"]
                     (init None None))).
  apply consistent_mainloop, consistent_first_run.
Defined.

(** X7.  Closing the program in a consistent state and starting it again
    on the files it left gives back the same goals in the same order, the
    same font size and the same files, in a state that is consistent
    again. *)
Theorem X7_restart (a : App) (data : option (list Goal)) :
  consistent a ->
  data_file a = option_map Json data ->
  goals (init data (settings_file a)) = goals a
  /\ current_font_size (init data (settings_file a)) = current_font_size a
  /\ data_file (init data (settings_file a)) = data_file a
  /\ consistent (init data (settings_file a)).
Proof.
  intros (Hu & Hl & Hw & Hs & Hsync & Hb & Hr) Hd.
  assert (El : match data with Some l => l | None => [] end = goals a).
  { destruct Hsync as [Hf | [Hf Hg]]; rewrite Hf in Hd; destruct data; simpl in Hd;
      try discriminate; [now inversion Hd | now rewrite Hg]. }
  assert (Hc : consistent (init data (settings_file a))).
  { apply (consistent_init data (settings_file a)); rewrite El; assumption. }
  split; [| split; [| split]]; trivial.
  - rewrite init_in_order by (rewrite El; assumption). cbn [goals set_goals]. exact El.
  - rewrite init_in_order by (rewrite El; assumption).
    cbn [current_font_size set_goals]. rewrite <- Hr.
    now apply load_settings_font_of_file.
  - rewrite init_in_order by (rewrite El; assumption).
    cbn [data_file set_goals].
    destruct (load_settings_keeps
                (mkApp [] (Int DEFAULT_FONT_SIZE) EmptyString "gray"
                       (option_map Json data) (settings_file a))) as (_ & -> & _).
    cbn [data_file]. now rewrite Hd.
Qed.

Lemma X7_restart_witness :
  goals (init (Some [goal "a" "2020-01-01"; goal "b" "2021-01-01"]) (font_size_file 18))
  = [goal "a" "2020-01-01"; goal "b" "2021-01-01"]
  /\ current_font_size
       (init (Some [goal "a" "2020-01-01"; goal "b" "2021-01-01"]) (font_size_file 18))
     = Int 18.
Proof.
  destruct (X7_restart
              (mainloop [ClickAdd "b" "2021-01-01"; SelectFontSize "18";
                         ClickAdd "a" "2020-01-01"] (init None None))
              (Some [goal "a" "2020-01-01"; goal "b" "2021-01-01"]))
    as (Hg & Hf & _).
  - apply consistent_mainloop, consistent_first_run.
  - reflexivity.
  - split; [exact Hg | exact Hf].
Defined.

(** X8.  In a consistent state, a goal that has just been added can be
    taken out again, and the store is then what it was before the add:
    the same list in the same order, in memory and in the data file. *)
Theorem X8_add_then_delete (a : App) (entry_goal entry_date : string) :
  consistent a ->
  fst (add_goal entry_goal entry_date a) = Added ->
  exists index,
    0 <= index < len (goals (snd (add_goal entry_goal entry_date a)))
    /\ fst (delete_goal index (snd (add_goal entry_goal entry_date a)))
       = Deleted (mkGoal (Some (PyStr.strip entry_goal)) (Some (PyStr.strip entry_date)))
    /\ goals (snd (delete_goal index (snd (add_goal entry_goal entry_date a))))
       = goals a
    /\ data_file (snd (delete_goal index (snd (add_goal entry_goal entry_date a))))
       = Some (Json (goals a)).
Proof.
  intros Hc Hok.
  pose proof (consistent_add_goal entry_goal entry_date a Hc) as Hc'.
  destruct Hc as (_ & _ & Hw & Hs & _).
  pose proof (add_goal_well_formed _ _ _ Hok) as Hnew.
  set (new_goal := mkGoal (Some (PyStr.strip entry_goal)) (Some (PyStr.strip entry_date))) in *.
  assert (Eg : goals (snd (add_goal entry_goal entry_date a))
               = list_sort_total PyStr.lt save_key (goals a ++ [new_goal])).
  { destruct (add_goal_cases entry_goal entry_date a)
      as [(_ & -> & _) | (Hf & _)]; [| contradiction].
    now rewrite (added_state_in_order _ _ a Hw Hnew). }
  destruct (list_sort_total_append PyStr.lt save_key (goals a) new_goal)
    as (l1 & l2 & Esort & El).
  { eapply StronglySorted_weaken;
      [| apply (well_formed_ascending_save _ Hw Hs)].
    intros x y _ _. apply string_le_not_above. }
  rewrite Esort in Eg.
  destruct (without_middle l1 l2 new_goal) as [Hnth Hwo].
  exists (Z.of_nat (List.length l1)).
  assert (Hi : 0 <= Z.of_nat (List.length l1)
               < len (goals (snd (add_goal entry_goal entry_date a)))).
  { rewrite Eg. unfold len. rewrite length_app. simpl. lia. }
  split; [exact Hi |].
  destruct (delete_goal_in_range _ _ Hi) as (x & rest & E & Hn & Hrest & _).
  rewrite Nat2Z.id, Eg in Hn, Hrest.
  rewrite Hnth in Hn. injection Hn as <-.
  fold (without (List.length l1) (l1 ++ new_goal :: l2)) in Hrest.
  rewrite Hwo, El in Hrest. subst rest.
  rewrite E. cbn [fst snd].
  rewrite deleted_state_in_order by assumption.
  cbn [goals data_file update_status write_data_file set_goals]. auto.
Qed.

Lemma X8_add_then_delete_witness :
  exists index,
    goals (snd (delete_goal index
                  (snd (add_goal "b" "2020-06-01"
                          (mainloop [ClickAdd "a" "2020-01-01"; ClickAdd "c" "2021-01-01"]
                                    (init None None))))))
    = [goal "a" "2020-01-01"; goal "c" "2021-01-01"].
Proof.
  destruct (X8_add_then_delete
              (mainloop [ClickAdd "a" "2020-01-01"; ClickAdd "c" "2021-01-01"]
                        (init None None)) "b" "2020-06-01")
    as (index & _ & _ & Hg & _).
  - apply consistent_mainloop, consistent_first_run.
  - reflexivity.
  - exists index. rewrite Hg. reflexivity.
Defined.

(** ** Redrawing, ties, rows *)

(** X9.  Drawing the display twice is drawing it once, and persisting
    twice is persisting once, in every state: the order the display puts
    the goals in is the order it finds them in the next time, whether the
    dates parse or not. *)
Theorem X9_redraw_and_persist_idempotent (a : App) :
  update_display (update_display a) = update_display a
  /\ save_goals (save_goals a) = save_goals a
  /\ listSortedByDate (update_display a) = listSortedByDate a.
Proof.
  split; [apply update_display_idempotent |].
  split; [apply save_goals_idempotent |].
  unfold listSortedByDate. now rewrite update_display_idempotent.
Qed.

Lemma string_ltb_irrefl (s : string) : PyStr.lt s s = false.
Proof.
  destruct (PyStr.lt s s) eqn:E; [| reflexivity].
  now rewrite (string_lt_asym s s E) in E.
Qed.

Lemma date_ltb_irrefl (d : PyDate.date) : PyDate.lt d d = false.
Proof. apply date_lt_false_iff. lia. Qed.

(** Two strings that parse to the same date are the same string. *)
Lemma fromisoformat_injective (s1 s2 : string) (d : PyDate.date) :
  PyDate.fromisoformat s1 = Some d -> PyDate.fromisoformat s2 = Some d -> s1 = s2.
Proof.
  intros H1 H2.
  pose proof (fromisoformat_lt _ _ _ _ H1 H2) as L12.
  pose proof (fromisoformat_lt _ _ _ _ H2 H1) as L21.
  rewrite date_ltb_irrefl in L12, L21.
  unfold PyStr.lt, String.ltb in L12, L21.
  rewrite (String.compare_antisym s2 s1) in L21.
  apply String.compare_eq_iff.
  destruct (String.compare s1 s2); simpl in *; congruence.
Qed.

Lemma filter_map_snd {K A : Type} (f : K * A -> bool) (g : A -> bool) (kl : list (K * A)) :
  Forall (fun p => f p = g (snd p)) kl ->
  map snd (filter f kl) = filter g (map snd kl).
Proof.
  induction 1 as [|p kl Hp _ IH]; simpl; [reflexivity |].
  rewrite <- Hp. destruct (f p); simpl; now rewrite IH.
Qed.

(** Stability of the sort, read on the sorted elements themselves. *)
Lemma sort_keyed_stable_on {K A : Type} (ltb : K -> K -> bool)
      (f : K * A -> bool) (g : A -> bool) (kl : list (K * A)) :
  (forall x y, f x = true -> f y = true -> ltb (fst y) (fst x) = false) ->
  Forall (fun p => f p = g (snd p)) kl ->
  filter g (map snd (sort_keyed ltb kl)) = filter g (map snd kl).
Proof.
  intros Hf Hfg.
  rewrite <- (filter_map_snd f g kl Hfg).
  rewrite <- (filter_map_snd f g (sort_keyed ltb kl)).
  - now rewrite (sort_keyed_stable ltb f kl Hf).
  - apply (Permutation_Forall (Permutation_sym (sort_keyed_Permutation ltb kl))).
    exact Hfg.
Qed.

Lemma decorate_display_date (l : list Goal) (kl : list (PyDate.date * Goal)) :
  decorate display_date_key l = Some kl ->
  map snd kl = l
  /\ Forall (fun p => PyDate.fromisoformat (display_key (snd p)) = Some (fst p)) kl.
Proof. intros H. exact (decorate_Some display_date_key l kl H). Qed.

(** X10.  Goals with the same date string keep, in the listing, the order
    they had in the list: the sort of the display never swaps two of
    them, whether it sorts by date or falls back to the strings. *)
Theorem X10_same_date_keeps_order (a : App) (d : string) :
  filter (fun g => String.eqb (display_key g) d) (listSortedByDate a)
  = filter (fun g => String.eqb (display_key g) d) (goals a).
Proof.
  unfold listSortedByDate.
  destruct (update_display_cases a) as [(sorted & Hs & E) | (_ & E)]; rewrite E.
  - cbn [goals set_goals].
    unfold list_sort in Hs.
    destruct (decorate display_date_key (goals a)) as [kl|] eqn:D; [| discriminate].
    injection Hs as <-.
    destruct (decorate_display_date _ _ D) as [Hm Hk].
    rewrite <- Hm.
    destruct (PyDate.fromisoformat d) as [k0|] eqn:Ed.
    + apply (sort_keyed_stable_on PyDate.lt
               (fun p => negb (PyDate.lt (fst p) k0) && negb (PyDate.lt k0 (fst p)))).
      * intros x y Hx Hy.
        apply andb_true_iff in Hx, Hy.
        destruct Hx as [Hx1 Hx2], Hy as [Hy1 Hy2].
        apply negb_true_iff in Hx1, Hx2, Hy1, Hy2.
        apply date_lt_false_iff.
        apply date_lt_false_iff in Hx1, Hx2, Hy1, Hy2. lia.
      * eapply Forall_impl; [| exact Hk].
        intros [k g] Hp. cbn [fst snd] in *.
        destruct (String.eqb_spec (display_key g) d) as [Heq | Hne].
        -- rewrite Heq, Ed in Hp. injection Hp as <-.
           now rewrite date_ltb_irrefl.
        -- destruct (PyDate.lt k k0) eqn:L1; [reflexivity |].
           destruct (PyDate.lt k0 k) eqn:L2; [reflexivity |].
           exfalso. apply Hne.
           assert (k = k0).
           { apply date_lt_false_iff in L1, L2.
             destruct k, k0; cbn [PyDate.year PyDate.month PyDate.day] in *.
             f_equal; lia. }
           subst k0. exact (fromisoformat_injective _ _ _ Hp Ed).
    + apply (sort_keyed_stable_on PyDate.lt (fun _ => false)).
      * discriminate.
      * eapply Forall_impl; [| exact Hk].
        intros [k g] Hp. cbn [fst snd] in *.
        destruct (String.eqb_spec (display_key g) d) as [Heq | Hne]; [| reflexivity].
        rewrite Heq, Ed in Hp. discriminate.
  - cbn [goals set_goals update_status]. unfold list_sort_total.
    rewrite (sort_keyed_stable_on PyStr.lt (fun p => String.eqb (fst p) d)).
    + now rewrite map_map, map_id.
    + intros x y Hx Hy.
      apply String.eqb_eq in Hx, Hy. rewrite Hx, Hy. apply string_ltb_irrefl.
    + apply Forall_forall. intros p Hp.
      apply in_map_iff in Hp. destruct Hp as (g & <- & _). reflexivity.
Qed.

(** *** The rows *)

Lemma display_rows_nth (clk : Clock) (draws : nat -> nat -> nat)
      (start : nat) (l : list Goal) (i : nat) :
  nth_error (display_rows clk draws start l) i
  = option_map (display_row clk (draws (start + i)%nat) (start + i)) (nth_error l i).
Proof.
  revert start i.
  induction l as [|g l IH]; intros start [|i]; simpl; try reflexivity.
  - now rewrite Nat.add_0_r.
  - rewrite IH. now rewrite Nat.add_succ_comm.
Qed.

Lemma get_random_encouragement_In (randbelow : nat -> nat) :
  (randbelow (List.length ENCOURAGING_WORDS) < List.length ENCOURAGING_WORDS)%nat ->
  In (get_random_encouragement randbelow) ENCOURAGING_WORDS.
Proof. intros H. unfold get_random_encouragement. now apply nth_In. Qed.

(** X11.  Each row of the display shows the name and the date of one goal
    of the listing, the text the formatter gives for that date and one of
    the twelve encouragements; the Delete button of the row at position
    [i] carries [i], and pressed on the display as drawn it deletes the
    very goal that the row shows. *)
Theorem X11_row_deletes_its_goal
        (clk : Clock) (draws : nat -> nat -> nat) (a : App) (i : nat) (g : Goal) :
  nth_error (listSortedByDate a) i = Some g ->
  exists rows row,
    display_frame clk draws a = GoalRows rows
    /\ List.length rows = List.length (goals a)
    /\ nth_error rows i = Some row
    /\ info_text row
       = "📌 " ++ get (name g) "Unnamed Goal"
           ++ " (Since: " ++ get (date g) "No Date" ++ ")" ++ LINE_FEED
           ++ "   └── " ++ fst (calculate_time_elapsed clk (get (date g) "No Date"))
           ++ " - " ++ get_random_encouragement (draws i)
    /\ ((draws i 12 < 12)%nat ->
        In (get_random_encouragement (draws i)) ENCOURAGING_WORDS)
    /\ delete_command row = Z.of_nat i
    /\ fst (delete_goal (delete_command row) (update_display a)) = Deleted g.
Proof.
  intros Hn. unfold listSortedByDate in Hn.
  assert (Hlen : List.length (goals (update_display a)) = List.length (goals a))
    by apply Permutation_length, update_display_Permutation.
  assert (Hi : (i < List.length (goals (update_display a)))%nat)
    by (apply nth_error_Some; congruence).
  exists (display_rows clk draws 0 (goals (update_display a))),
         (display_row clk (draws i) i g).
  split; [| split; [| split; [| split; [| split; [| split]]]]].
  - unfold display_frame. destruct (goals a); [simpl in *; lia | reflexivity].
  - rewrite <- Hlen. clear.
    generalize 0%nat. induction (goals (update_display a)); intros n; simpl; auto.
  - rewrite display_rows_nth, Hn. reflexivity.
  - reflexivity.
  - apply get_random_encouragement_In.
  - reflexivity.
  - cbn [delete_command display_row].
    destruct (delete_goal_in_range (Z.of_nat i) (update_display a))
      as (x & rest & E & Hx & _).
    + unfold len. lia.
    + rewrite E. rewrite Nat2Z.id, Hn in Hx. now injection Hx as <-.
Qed.

Lemma X11_row_deletes_its_goal_witness :
  fst (delete_goal 1 (update_display
                        (app_with [goal "sugar" "2021-05-05"; goal "coffee" "2020-01-01";
                                   goal "tea" "2022-02-02"])))
  = Deleted (goal "sugar" "2021-05-05").
Proof.
  destruct (X11_row_deletes_its_goal
              (mkClock (PyDate.mkdate 2023 1 1) "2023-01-01 09:30") (fun _ _ => 3%nat)
              (app_with [goal "sugar" "2021-05-05"; goal "coffee" "2020-01-01";
                         goal "tea" "2022-02-02"])
              1 (goal "sugar" "2021-05-05") eq_refl)
    as (rows & row & _ & _ & _ & _ & _ & Hc & Hd).
  rewrite Hc in Hd. exact Hd.
Defined.

(** ** Settings and font size *)

Lemma load_settings_after_save (a : App) :
  between MIN_FONT_SIZE MAX_FONT_SIZE (current_font_size a) = true ->
  load_settings (save_settings a) = save_settings a.
Proof.
  intros Hb. unfold load_settings, load_settings_try.
  cbn [settings_file save_settings write_settings_file dict_get assoc as_number].
  simpl String.eqb. cbn iota.
  cbn [as_number current_font_size]. rewrite Hb.
  now destruct a.
Qed.

(** X12.  Loading the settings twice is loading them once, whatever the
    file holds; and a font size within the bounds that has been saved is
    the font size that loading gives back, the file staying as written. *)
Theorem X12_settings_round_trip (a : App) :
  load_settings (load_settings a) = load_settings a
  /\ (between MIN_FONT_SIZE MAX_FONT_SIZE (current_font_size a) = true ->
      load_settings (save_settings a) = save_settings a
      /\ current_font_size (load_settings (save_settings a)) = current_font_size a).
Proof.
  split; [apply load_settings_idempotent |].
  intros Hb. rewrite (load_settings_after_save a Hb). auto.
Qed.

Lemma X12_settings_round_trip_witness :
  load_settings
    (save_settings (mkApp [] (Float (27 # 2)) EmptyString "gray" None None))
  = mkApp [] (Float (27 # 2)) EmptyString "gray" None
          (Some (Json (JObj [("font_size", JNum (Float (27 # 2)))]))).
Proof.
  destruct (X12_settings_round_trip
              (mkApp [] (Float (27 # 2)) EmptyString "gray" None None)) as [_ H].
  destruct (H eq_refl) as [E _]. rewrite E. reflexivity.
Defined.

Lemma available_sizes_parse :
  Forall (fun s => exists n, PyInt.int s = Some n
                             /\ MIN_FONT_SIZE <= n <= MAX_FONT_SIZE
                             /\ PyStr.str n = s)
         AVAILABLE_FONT_SIZES.
Proof.
  repeat constructor;
    match goal with
    | |- exists n, PyInt.int ?s = _ /\ _ =>
        let v := eval vm_compute in (PyInt.int s) in
        match v with
        | Some ?n => exists n; repeat split; try reflexivity; discriminate
        end
    end.
Qed.

(** X13.  The font-size callback: every entry of the combo box is read as
    a size within the bounds; selecting a size within the bounds that
    differs from the current one makes it the current one and writes it to
    the settings file, from which loading gives it back; a text that is
    not a number, or a number outside the bounds, changes nothing; in all
    cases the font size stays within the bounds if it was, the goals are
    the same (possibly re-sorted by the redraw) and the data file is not
    touched. *)
Theorem X13_font_size_changed (selected_size_str : string) (a : App) :
  Forall (fun s => exists n, PyInt.int s = Some n
                             /\ MIN_FONT_SIZE <= n <= MAX_FONT_SIZE)
         AVAILABLE_FONT_SIZES
  /\ (forall new_size,
         PyInt.int selected_size_str = Some new_size ->
         MIN_FONT_SIZE <= new_size <= MAX_FONT_SIZE ->
         differs new_size (current_font_size a) = true ->
         current_font_size (font_size_changed selected_size_str a) = Int new_size
         /\ settings_file (font_size_changed selected_size_str a)
            = font_size_file new_size
         /\ current_font_size (load_settings (font_size_changed selected_size_str a))
            = Int new_size)
  /\ ((PyInt.int selected_size_str = None
       \/ exists n, PyInt.int selected_size_str = Some n
                    /\ ~ (MIN_FONT_SIZE <= n <= MAX_FONT_SIZE)) ->
      font_size_changed selected_size_str a = a)
  /\ (between MIN_FONT_SIZE MAX_FONT_SIZE (current_font_size a) = true ->
      between MIN_FONT_SIZE MAX_FONT_SIZE
              (current_font_size (font_size_changed selected_size_str a)) = true)
  /\ Permutation (goals (font_size_changed selected_size_str a)) (goals a)
  /\ data_file (font_size_changed selected_size_str a) = data_file a.
Proof.
  split.
  { eapply Forall_impl; [| exact available_sizes_parse].
    intros s (n & Hn & Hr & _). now exists n. }
  assert (Hchanged : forall n,
             MIN_FONT_SIZE <= n <= MAX_FONT_SIZE ->
             between MIN_FONT_SIZE MAX_FONT_SIZE (Int n) = true).
  { intros n Hn. cbn [between]. apply andb_true_iff. split; apply Z.leb_le; lia. }
  split; [| split; [| split; [| split]]].
  - intros n Hint Hn Hd. unfold font_size_changed, _apply_global_font_settings.
    rewrite Hint, Hd.
    replace ((MIN_FONT_SIZE <=? n) && (n <=? MAX_FONT_SIZE)) with true
      by (symmetry; apply andb_true_iff; split; apply Z.leb_le; lia).
    destruct (update_display_files (set_font_size (Int n) a)) as (_ & _ & Hf).
    cbn [current_font_size set_font_size] in Hf.
    assert (Hs : settings_file (save_settings (update_display (set_font_size (Int n) a)))
                 = font_size_file n).
    { unfold save_settings, font_size_file. cbn [settings_file write_settings_file].
      now rewrite Hf. }
    split; [exact Hf |]. split; [exact Hs |].
    rewrite (load_settings_saved n _ (Hchanged n Hn) Hs). reflexivity.
  - intros [Hnone | (n & Hint & Hout)]; unfold font_size_changed.
    + now rewrite Hnone.
    + rewrite Hint.
      destruct (Z.leb_spec MIN_FONT_SIZE n), (Z.leb_spec n MAX_FONT_SIZE);
        cbn [andb]; try reflexivity.
      exfalso. apply Hout. lia.
  - intros Hb.
    destruct (font_size_changed_cases selected_size_str a)
      as [-> | (n & _ & Hn & _ & ->)]; [exact Hb |].
    destruct (update_display_files (set_font_size (Int n) a)) as (_ & _ & Hf).
    cbn [current_font_size save_settings write_settings_file]. rewrite Hf.
    now apply Hchanged.
  - destruct (font_size_changed_cases selected_size_str a)
      as [-> | (n & _ & _ & _ & ->)]; [apply Permutation_refl |].
    cbn [goals save_settings write_settings_file].
    apply (update_display_Permutation (set_font_size (Int n) a)).
  - destruct (font_size_changed_cases selected_size_str a)
      as [-> | (n & _ & _ & _ & ->)]; [reflexivity |].
    cbn [data_file save_settings write_settings_file].
    now destruct (update_display_files (set_font_size (Int n) a)) as (-> & _).
Qed.

Lemma X13_font_size_changed_witness :
  font_size_changed " 2_0 " (app_with [goal "b" "2021-01-01"; goal "a" "2020-01-01"])
  = mkApp [goal "a" "2020-01-01"; goal "b" "2021-01-01"] (Int 20) EmptyString "gray"
          (Some (Json [goal "b" "2021-01-01"; goal "a" "2020-01-01"]))
          (font_size_file 20)
  /\ font_size_changed "20.0" (app_with []) = app_with []
  /\ current_font_size
       (load_settings
          (font_size_changed "24" (app_with [goal "b" "2021-01-01"])))
     = Int 24.
Proof.
  split; [reflexivity |].
  split.
  - destruct (X13_font_size_changed "20.0" (app_with [])) as (_ & _ & Hno & _).
    apply Hno. left. reflexivity.
  - destruct (X13_font_size_changed "24" (app_with [goal "b" "2021-01-01"]))
      as (_ & Hyes & _).
    apply (Hyes 24); [reflexivity | split; discriminate | reflexivity].
Defined.


(** ** Days and dates *)

Lemma fromisoformat_valid (s : string) (d : PyDate.date) :
  PyDate.fromisoformat s = Some d ->
  PyDate.check_date_fields (PyDate.year d) (PyDate.month d) (PyDate.day d) = true.
Proof.
  unfold PyDate.fromisoformat.
  destruct (list_ascii_of_string s) as [|y1 [|y2 [|y3 [|y4 [|s1 [|m1 [|m2 [|s2 [|d1 [|d2 [|]]]]]]]]]]];
    try discriminate.
  destruct (Ascii.eqb s1 "-" && Ascii.eqb s2 "-"); [| discriminate].
  destruct (PyDate.digits4 y1 y2 y3 y4) as [y|]; [| discriminate].
  destruct (PyDate.digits2 m1 m2) as [m|]; [| discriminate].
  destruct (PyDate.digits2 d1 d2) as [dd|]; [| discriminate].
  destruct (PyDate.check_date_fields y m dd) eqn:E; [| discriminate].
  intros H. injection H as <-. exact E.
Qed.

Lemma check_date_fields_inv (y m d : Z) :
  PyDate.check_date_fields y m d = true ->
  1 <= y <= 9999 /\ 1 <= m <= 12 /\ 1 <= d <= PyDate.days_in_month y m.
Proof.
  unfold PyDate.check_date_fields, PyDate.MINYEAR, PyDate.MAXYEAR.
  rewrite !andb_true_iff, !Z.leb_le. tauto.
Qed.

Lemma days_before_year_monotone (y y' : Z) :
  y <= y' -> PyDate.days_before_year y <= PyDate.days_before_year y'.
Proof.
  unfold PyDate.days_before_year. intros H.
  Z.div_mod_to_equations. lia.
Qed.

Lemma days_before_next_year (y : Z) :
  PyDate.days_before_year (y + 1)
  = PyDate.days_before_year y + 365 + (if PyDate.is_leap y then 1 else 0).
Proof.
  unfold PyDate.days_before_year, PyDate.is_leap.
  replace (y + 1 - 1) with y by lia.
  destruct (Z.eqb_spec (y mod 4) 0), (Z.eqb_spec (y mod 100) 0),
           (Z.eqb_spec (y mod 400) 0); cbn [andb orb negb];
    Z.div_mod_to_equations; lia.
Qed.

Ltac month_cases m :=
  let H := fresh in
  assert (H : m = 1 \/ m = 2 \/ m = 3 \/ m = 4 \/ m = 5 \/ m = 6 \/ m = 7
              \/ m = 8 \/ m = 9 \/ m = 10 \/ m = 11 \/ m = 12) by lia;
  destruct H as [-> | [-> | [-> | [-> | [-> | [-> | [-> | [-> | [-> | [-> | [-> | ->]]]]]]]]]]].

(** The days of a month come after the days of every earlier month, and
    the last day of the year is day 365 or 366. *)
Lemma month_after_month (y m m' : Z) :
  1 <= m -> m < m' -> m' <= 12 ->
  PyDate.days_before_month y m + PyDate.days_in_month y m
  <= PyDate.days_before_month y m'.
Proof.
  intros H1 H2 H3.
  unfold PyDate.days_before_month, PyDate.days_in_month.
  month_cases m; month_cases m'; try lia;
    destruct (PyDate.is_leap y); vm_compute; discriminate.
Qed.

Lemma month_within_year (y m : Z) :
  1 <= m <= 12 ->
  0 <= PyDate.days_before_month y m
  /\ PyDate.days_before_month y m + PyDate.days_in_month y m
     <= 365 + (if PyDate.is_leap y then 1 else 0).
Proof.
  intros H.
  unfold PyDate.days_before_month, PyDate.days_in_month.
  month_cases m; destruct (PyDate.is_leap y); vm_compute; split; discriminate.
Qed.

(** On valid dates the ordinal grows with the date. *)
Lemma toordinal_lt (a b : PyDate.date) :
  PyDate.check_date_fields (PyDate.year a) (PyDate.month a) (PyDate.day a) = true ->
  PyDate.check_date_fields (PyDate.year b) (PyDate.month b) (PyDate.day b) = true ->
  PyDate.lt a b = true -> PyDate.toordinal a < PyDate.toordinal b.
Proof.
  destruct a as [ya ma da], b as [yb mb db].
  cbn [PyDate.year PyDate.month PyDate.day].
  intros Va Vb Hlt.
  apply check_date_fields_inv in Va, Vb.
  apply date_lt_iff in Hlt. cbn [PyDate.year PyDate.month PyDate.day] in Hlt.
  unfold PyDate.toordinal, PyDate.ymd2ord.
  cbn [PyDate.year PyDate.month PyDate.day].
  destruct Hlt as [Hy | [-> [Hm | [-> Hd]]]].
  - pose proof (month_within_year ya ma) as Wa.
    pose proof (month_within_year yb mb) as Wb.
    pose proof (days_before_next_year ya) as Hn.
    pose proof (days_before_year_monotone (ya + 1) yb) as Hmono.
    lia.
  - pose proof (month_after_month yb ma mb). lia.
  - lia.
Qed.

Lemma toordinal_order (a b : PyDate.date) :
  PyDate.check_date_fields (PyDate.year a) (PyDate.month a) (PyDate.day a) = true ->
  PyDate.check_date_fields (PyDate.year b) (PyDate.month b) (PyDate.day b) = true ->
  (PyDate.lt a b = true <-> PyDate.toordinal a < PyDate.toordinal b)
  /\ (a = b <-> PyDate.toordinal a = PyDate.toordinal b).
Proof.
  intros Va Vb.
  assert (Htri : PyDate.lt a b = true \/ a = b \/ PyDate.lt b a = true).
  { destruct (PyDate.lt a b) eqn:L1; [now left |].
    destruct (PyDate.lt b a) eqn:L2; [now right; right |].
    right; left.
    apply date_lt_false_iff in L1, L2.
    destruct a, b; cbn [PyDate.year PyDate.month PyDate.day] in *.
    f_equal; lia. }
  split; split.
  - now apply toordinal_lt.
  - intros Ho. destruct Htri as [H | [-> | H]]; [exact H | lia |].
    pose proof (toordinal_lt b a Vb Va H). lia.
  - now intros ->.
  - intros Ho. destruct Htri as [H | [H | H]]; [| exact H |].
    + pose proof (toordinal_lt a b Va Vb H). lia.
    + pose proof (toordinal_lt b a Vb Va H). lia.
Qed.

Lemma elapsed_result_positive (delta_days : Z) :
  0 < delta_days ->
  elapsed_result delta_days
  = (PyStr.join ", " (elapsed_parts delta_days) ++ " ago", Some delta_days).
Proof.
  intros Hpos. unfold elapsed_result, elapsed_branch.
  destruct (Z.eqb_spec delta_days 0); [lia |].
  destruct (elapsed_parts delta_days) eqn:E; [| reflexivity].
  exfalso. rewrite elapsed_parts_positive in E by assumption.
  pose proof (div_mod_365 delta_days) as [Hdm Hm].
  assert (Hy : 0 <= delta_days / 365) by (apply Z.div_pos; lia).
  destruct (Z.ltb_spec 0 (delta_days / 365)); [discriminate |].
  destruct (Z.ltb_spec 0 (delta_days mod 365)); [discriminate | lia].
Qed.

(** X15.  For a date string that parses, the formatter tells the three
    cases apart by the calendar: a date after today gives the future-date
    message and no day count; today's date gives "Today is the day!" and
    0; a date before today gives a phrase that ends in "ago" and a day
    count that is positive and is the number of days between the two
    dates.  No day count is given exactly when the date is after today. *)
Theorem X15_elapsed_by_calendar (clk : Clock) (dateStr : string) (d : PyDate.date) :
  PyDate.fromisoformat dateStr = Some d ->
  PyDate.check_date_fields (PyDate.year (today clk)) (PyDate.month (today clk))
                           (PyDate.day (today clk)) = true ->
  (PyDate.lt (today clk) d = true ->
   calculate_time_elapsed clk dateStr = (future_message dateStr (now_str clk), None))
  /\ (d = today clk ->
      calculate_time_elapsed clk dateStr = (TODAY_IS_THE_DAY, Some 0))
  /\ (PyDate.lt d (today clk) = true ->
      exists n, 0 < n
                /\ n = PyDate.toordinal (today clk) - PyDate.toordinal d
                /\ calculate_time_elapsed clk dateStr
                   = (PyStr.join ", " (elapsed_parts n) ++ " ago", Some n))
  /\ (snd (calculate_time_elapsed clk dateStr) = None
      <-> PyDate.lt (today clk) d = true).
Proof.
  intros Hp Vt.
  pose proof (fromisoformat_valid _ _ Hp) as Vd.
  destruct (toordinal_order (today clk) d Vt Vd) as [Hlt1 _].
  destruct (toordinal_order d (today clk) Vd Vt) as [Hlt2 Heq].
  unfold calculate_time_elapsed, PyDate.sub_days. rewrite Hp.
  split; [| split; [| split]].
  - intros H. apply Hlt1 in H.
    destruct (Z.ltb_spec (PyDate.toordinal (today clk) - PyDate.toordinal d) 0);
      [reflexivity | lia].
  - intros ->. rewrite Z.sub_diag. reflexivity.
  - intros H. apply Hlt2 in H.
    exists (PyDate.toordinal (today clk) - PyDate.toordinal d).
    split; [lia |]. split; [reflexivity |].
    destruct (Z.ltb_spec (PyDate.toordinal (today clk) - PyDate.toordinal d) 0);
      [lia |].
    apply elapsed_result_positive. lia.
  - destruct (Z.ltb_spec (PyDate.toordinal (today clk) - PyDate.toordinal d) 0)
      as [Hneg | Hnn].
    + split; [intros _; apply Hlt1; lia | reflexivity].
    + split.
      * unfold elapsed_result.
        destruct (elapsed_branch _); cbn [snd]; discriminate.
      * intros H. apply Hlt1 in H. lia.
Qed.

Lemma X15_elapsed_by_calendar_witness :
  calculate_time_elapsed (mkClock (PyDate.mkdate 2024 3 1) "2024-03-01 08:00") "2024-02-28"
  = ("2 days ago", Some 2)
  /\ (snd (calculate_time_elapsed (mkClock (PyDate.mkdate 2024 3 1) "2024-03-01 08:00")
             "2024-02-28") = None
      <-> PyDate.lt (PyDate.mkdate 2024 3 1) (PyDate.mkdate 2024 2 28) = true).
Proof.
  split; [reflexivity |].
  apply (X15_elapsed_by_calendar
           (mkClock (PyDate.mkdate 2024 3 1) "2024-03-01 08:00") "2024-02-28"
           (PyDate.mkdate 2024 2 28)); reflexivity.
Defined.



(** ** The timer of the status label *)

Lemma remove_only (job : nat) : List.remove Nat.eq_dec job [job] = [].
Proof. simpl. destruct (Nat.eq_dec job job); [reflexivity | contradiction]. Qed.

Lemma update_status_label_cancels (message color : string) (s : StatusLabel) :
  one_timer s ->
  update_status_label message color s
  = if negb (String.eqb color "red")
    then mkStatusLabel message color (Some (next_timer s)) [next_timer s]
                       (S (next_timer s))
    else mkStatusLabel message color None [] (next_timer s).
Proof.
  intros [Ht | (job & Hj & Ht)]; unfold update_status_label, after_cancel;
    cbn [status_clear_job timers next_timer label_text label_color].
  - rewrite Ht. destruct (status_clear_job s); reflexivity.
  - rewrite Hj, Ht. cbn [status_clear_job timers next_timer label_text label_color].
    rewrite remove_only. reflexivity.
Qed.

Lemma one_timer_step (e : StatusEvent) (s : StatusLabel) :
  one_timer s -> one_timer (status_step e s).
Proof.
  intros H. destruct e as [message color | job]; simpl.
  - rewrite (update_status_label_cancels message color s H).
    destruct (negb (String.eqb color "red")).
    + right. exists (next_timer s). split; reflexivity.
    + left. reflexivity.
  - unfold timer_expires.
    destruct (in_dec Nat.eq_dec job (timers s)) as [Hin | _]; [| exact H].
    left. cbn [timers].
    destruct H as [Ht | (j & _ & Ht)]; rewrite Ht in *.
    + destruct Hin.
    + destruct Hin as [<- | []]. apply remove_only.
Qed.

Lemma one_timer_run (events : list StatusEvent) (s : StatusLabel) :
  one_timer s -> one_timer (status_run events s).
Proof.
  unfold status_run. revert s.
  induction events as [|e events IH]; simpl; intros s H; [exact H |].
  apply IH. now apply one_timer_step.
Qed.

Lemma expirations_without_timer (jobs : list nat) (s : StatusLabel) :
  timers s = [] -> status_run (map Expire jobs) s = s.
Proof.
  unfold status_run. intros Ht.
  induction jobs as [|j jobs IH]; simpl; [reflexivity |].
  assert (E : timer_expires j s = s).
  { unfold timer_expires. rewrite Ht.
    now destruct (in_dec Nat.eq_dec j []) as [[] | _]. }
  rewrite E. exact IH.
Qed.

(** X17.  An error message stays: after a message in red is reported, no
    timer is pending, and whatever timers expire afterwards (those of
    earlier messages included, which the report has cancelled), the label
    keeps showing the message, until the next report. *)
Theorem X17_error_message_stays
        (events : list StatusEvent) (message : string) (jobs : list nat) :
  let s := update_status_label message "red" (status_run events initial_status_label) in
  timers s = []
  /\ status_clear_job s = None
  /\ status_run (map Expire jobs) s = s
  /\ label_text (status_run (map Expire jobs) s) = message
  /\ label_color (status_run (map Expire jobs) s) = "red".
Proof.
  intros s.
  assert (Hinv : one_timer (status_run events initial_status_label))
    by (apply one_timer_run; left; reflexivity).
  assert (Es : s = mkStatusLabel message "red" None []
                     (next_timer (status_run events initial_status_label))).
  { unfold s. now rewrite (update_status_label_cancels _ _ _ Hinv). }
  assert (Hrun : status_run (map Expire jobs) s = s)
    by (apply expirations_without_timer; now rewrite Es).
  rewrite Hrun, Es. cbn. auto.
Qed.

(** X18.  A message in any other colour is shown until its own timer
    expires and is cleared then: at any moment of any session at most one
    timer is pending; after such a report exactly one is, the expiry of
    that one empties the label, and the expiry of any other identifier
    leaves the label as it is. *)
Theorem X18_message_cleared_by_its_timer
        (events : list StatusEvent) (message color : string) :
  String.eqb color "red" = false ->
  one_timer (status_run events initial_status_label)
  /\ exists job,
      let s := update_status_label message color
                 (status_run events initial_status_label) in
      label_text s = message
      /\ label_color s = color
      /\ timers s = [job]
      /\ status_clear_job s = Some job
      /\ label_text (timer_expires job s) = EmptyString
      /\ timers (timer_expires job s) = []
      /\ (forall other, other <> job -> timer_expires other s = s).
Proof.
  intros Hc.
  assert (Hinv : one_timer (status_run events initial_status_label))
    by (apply one_timer_run; left; reflexivity).
  split; [exact Hinv |].
  exists (next_timer (status_run events initial_status_label)).
  rewrite (update_status_label_cancels _ _ _ Hinv), Hc. cbn [negb].
  set (job := next_timer (status_run events initial_status_label)).
  cbn [label_text label_color timers status_clear_job].
  repeat split.
  - unfold timer_expires. cbn [timers].
    destruct (in_dec Nat.eq_dec job [job]) as [_ | Hn]; [reflexivity |].
    elim Hn. now left.
  - unfold timer_expires. cbn [timers].
    destruct (in_dec Nat.eq_dec job [job]) as [_ | Hn];
      [cbn [timers]; apply remove_only | elim Hn; now left].
  - intros other Ho. unfold timer_expires. cbn [timers].
    destruct (in_dec Nat.eq_dec other [job]) as [[Hin | []] | _]; [| reflexivity].
    now elim Ho.
Qed.

Lemma X18_message_cleared_by_its_timer_witness :
  label_text
    (status_run [Report "Goal 'a' added successfully!" "green"; Expire 0;
                 Report "Date cannot be empty." "orange"; Expire 0; Expire 1]
                initial_status_label) = EmptyString
  /\ one_timer
       (status_run [Report "Goal 'a' added successfully!" "green"; Expire 0;
                    Report "Date cannot be empty." "orange"]
                   initial_status_label).
Proof.
  split; [reflexivity |].
  apply (X18_message_cleared_by_its_timer
           [Report "Goal 'a' added successfully!" "green"; Expire 0;
            Report "Date cannot be empty." "orange"] "x" "green").
  reflexivity.
Defined.

(** ** Names, once more *)

(** X19.  The handler that [delete_goal] keeps for an [IndexError] of
    [pop] is never the branch taken: the test of the index lets [pop] run
    only where it succeeds, so every delete either removes a goal or is
    refused for its index. *)
Theorem X19_pop_never_fails (index : Z) (a : App) :
  fst (delete_goal index a) <> PopIndexError
  /\ ((exists removed_goal, fst (delete_goal index a) = Deleted removed_goal)
      <-> 0 <= index < len (goals a))
  /\ (fst (delete_goal index a) = IndexOutOfRange
      <-> ~ (0 <= index < len (goals a))).
Proof.
  destruct (Z_le_dec 0 index) as [H0|H0];
    [destruct (Z_lt_dec index (len (goals a))) as [H1|H1] |].
  - destruct (delete_goal_in_range index a) as (x & rest & E & _); [lia |].
    rewrite E. cbn [fst].
    split; [discriminate |].
    split; split; try discriminate; try lia; eauto.
  - rewrite delete_goal_out_of_range by lia. cbn [fst].
    split; [discriminate |].
    split; split; try lia; try reflexivity.
    intros (x & Hx). discriminate.
  - rewrite delete_goal_out_of_range by lia. cbn [fst].
    split; [discriminate |].
    split; split; try lia; try reflexivity.
    intros (x & Hx). discriminate.
Qed.

Lemma lower_empty (s : string) : is_empty (PyStr.lower s) = is_empty s.
Proof. now destruct s. Qed.

(** X20.  Once a goal has been added, adding its name again is refused as
    a duplicate in any capitalisation and with any blanks around it,
    whatever well-formed date comes with it, and the store stays as the
    first add left it. *)
Theorem X20_name_taken_after_add
        (a : App) (entry_goal entry_date again_goal again_date : string)
        (d : PyDate.date) :
  fst (add_goal entry_goal entry_date a) = Added ->
  PyStr.lower (PyStr.strip again_goal) = PyStr.lower (PyStr.strip entry_goal) ->
  PyDate.fromisoformat (PyStr.strip again_date) = Some d ->
  fst (add_goal again_goal again_date (snd (add_goal entry_goal entry_date a)))
  = DuplicateName
  /\ goals (snd (add_goal again_goal again_date (snd (add_goal entry_goal entry_date a))))
     = goals (snd (add_goal entry_goal entry_date a))
  /\ data_file (snd (add_goal again_goal again_date
                       (snd (add_goal entry_goal entry_date a))))
     = data_file (snd (add_goal entry_goal entry_date a)).
Proof.
  intros Hok Hsame Hd.
  destruct (add_goal_cases entry_goal entry_date a)
    as [(_ & E & Hn & _) | (Hf & _)]; [| contradiction].
  set (a' := snd (add_goal entry_goal entry_date a)) in *.
  assert (Hin : In (mkGoal (Some (PyStr.strip entry_goal)) (Some (PyStr.strip entry_date)))
                   (goals a')).
  { rewrite E.
    apply (Permutation_in _ (Permutation_sym (added_state_Permutation _ _ a))).
    apply in_or_app. right. now left. }
  assert (Hex : existsb (same_name (PyStr.strip again_goal)) (goals a') = true).
  { apply existsb_exists. eexists. split; [exact Hin |].
    unfold same_name. cbn [name get]. rewrite Hsame. apply String.eqb_refl. }
  assert (Hne : is_empty (PyStr.strip again_goal) = false).
  { rewrite <- lower_empty, Hsame, lower_empty. exact Hn. }
  assert (Eagain : add_goal again_goal again_date a'
                   = (DuplicateName,
                      update_status ("Goal '" ++ PyStr.strip again_goal
                                              ++ "' already exists.") "orange" a')).
  { unfold add_goal.
    now rewrite Hne, (fromisoformat_not_empty _ _ Hd), Hd, Hex. }
  rewrite Eagain. auto.
Qed.

Lemma X20_name_taken_after_add_witness :
  fst (add_goal "  QUIT sugar " "2022-02-02"
         (snd (add_goal "Quit Sugar" "2021-05-05" (app_with []))))
  = DuplicateName.
Proof.
  apply (X20_name_taken_after_add (app_with []) "Quit Sugar" "2021-05-05"
           "  QUIT sugar " "2022-02-02" (PyDate.mkdate 2022 2 2));
    reflexivity.
Defined.

(** X21.  In a consistent state, deleting a goal frees its name: right
    after the delete, adding the name of the removed goal with any
    well-formed date goes through. *)
Theorem X21_delete_frees_the_name (a : App) (index : Z) :
  consistent a ->
  0 <= index < len (goals a) ->
  exists removed_goal goal_name,
    fst (delete_goal index a) = Deleted removed_goal
    /\ name removed_goal = Some goal_name
    /\ forall dateStr d,
        PyDate.fromisoformat dateStr = Some d ->
        fst (add_goal goal_name dateStr (snd (delete_goal index a))) = Added.
Proof.
  intros Hc Hi.
  pose proof Hc as (Hu & Hl & Hw & Hs & _).
  destruct (delete_goal_in_range index a Hi) as (x & rest & E & Hn & Hrest & Hp).
  assert (Hwx : well_formed x).
  { rewrite Forall_forall in Hw. apply Hw. eapply nth_error_In; eassumption. }
  destruct Hwx as (n & dx & -> & Hstrip & Hne & _).
  exists (mkGoal (Some n) (Some dx)), n.
  rewrite E. cbn [fst snd name].
  split; [reflexivity |]. split; [reflexivity |].
  intros dateStr d Hd.
  assert (Eg : goals (deleted_state (mkGoal (Some n) (Some dx)) rest a) = rest).
  { rewrite deleted_state_in_order; [reflexivity | |].
    - rewrite Hrest. now apply Forall_without.
    - rewrite Hrest. now apply StronglySorted_without. }
  rewrite (add_goal_Added n dateStr d).
  - reflexivity.
  - now rewrite Hstrip.
  - now rewrite (fromisoformat_strip _ _ Hd).
  - rewrite Hstrip, Eg.
    destruct (existsb (same_name n) rest) eqn:Ex; [| reflexivity].
    exfalso.
    apply existsb_exists in Ex. destruct Ex as (g & Hg & Hsame).
    apply same_name_key in Hsame.
    apply (unique_names_Permutation _ _ (Permutation_sym Hp)) in Hu.
    unfold unique_names in Hu. simpl in Hu. inversion Hu as [|? ? Hnot _]; subst.
    apply Hnot. unfold name_key at 1. cbn [name get]. rewrite <- Hsame.
    now apply in_map.
  - rewrite Eg.
    pose proof (len_Permutation _ _ Hp) as Hlen.
    unfold len in *. simpl in Hlen. lia.
Qed.

Lemma X21_delete_frees_the_name_witness :
  fst (add_goal "a" "2024-04-04"
         (snd (delete_goal 0
                 (mainloop [ClickAdd "a" "2020-01-01"; ClickAdd "b" "2021-01-01"]
                           (init None None)))))
  = Added.
Proof.
  destruct (X21_delete_frees_the_name
              (mainloop [ClickAdd "a" "2020-01-01"; ClickAdd "b" "2021-01-01"]
                        (init None None)) 0)
    as (removed_goal & goal_name & Hdel & Hname & Hadd).
  - apply consistent_mainloop, consistent_first_run.
  - split; [discriminate | reflexivity].
  - assert (Hr : removed_goal = goal "a" "2020-01-01").
    { assert (Hd : fst (delete_goal 0
                          (mainloop [ClickAdd "a" "2020-01-01"; ClickAdd "b" "2021-01-01"]
                                    (init None None)))
                   = Deleted (goal "a" "2020-01-01")) by reflexivity.
      rewrite Hd in Hdel. now injection Hdel as <-. }
    subst removed_goal. cbn [name goal] in Hname. injection Hname as <-.
    apply (Hadd "2024-04-04" (PyDate.mkdate 2024 4 4)). reflexivity.
Defined.
